(** * Deliverge: the parcel-posting screen (pricing, distance, validation)

    Shallow embedding of [frontend/app/sender/post-parcel.tsx].

    Number model.  A JavaScript number is an IEEE-754 double.  The text
    fields of the form ([weight], [declaredValue]) are strings, read as
    sequences of code units below 256; what [parseFloat] returns for them is
    a [Number]: the double nearest to the literal it read, given by its
    exact rational value, or [NaN], or an infinity.

    [calculateDistance] uses [Math.sin], [Math.cos] and [Math.atan2], whose
    results the language leaves to the implementation; it is read over the
    real numbers ([R], with [sin], [cos], [atan], [sqrt] and [PI] of the
    Standard Library), and so is the price where it is compared or bounded
    ([priceFor]).  The arithmetic of [calculatePrice] itself, product by
    product, is in [Binary64]: there every operation is the binary64 one. *)

From Stdlib Require Import Reals Lra Lia ZArith QArith Qreals Bool List.
From Stdlib Require Import Strings.String Strings.Ascii.
From Stdlib Require Floats.
Import ListNotations.

Local Open Scope string_scope.
Local Open Scope Z_scope.
Local Open Scope R_scope.

(** ** The part of the JavaScript runtime the screen uses *)

Module JS.

(** What [parseFloat] can return. *)
Inductive Number : Type :=
  | NaN
  | Infinity (negative : bool)
  | Finite (q : Q).

(** [ToBoolean] on numbers: [NaN], [+0] and [-0] are falsy. *)
Definition ToBoolean (x : Number) : bool :=
  match x with
  | NaN => false
  | Infinity _ => true
  | Finite q => negb (Qeq_bool q 0)
  end.

(** [x < y]; every comparison with [NaN] is false. *)
Definition ltb (x y : Number) : bool :=
  match x, y with
  | NaN, _ | _, NaN => false
  | Infinity n, Infinity m => n && negb m
  | Infinity n, Finite _ => n
  | Finite _, Infinity m => negb m
  | Finite a, Finite b => negb (Qle_bool b a)
  end.

(** [x <= y]. *)
Definition leb (x y : Number) : bool :=
  match x, y with
  | NaN, _ | _, NaN => false
  | Infinity n, Infinity m => n || negb m
  | Infinity n, Finite _ => n
  | Finite _, Infinity m => negb m
  | Finite a, Finite b => Qle_bool a b
  end.

(** [x > y] and [x >= y] are the mirrored comparisons. *)
Definition gtb (x y : Number) : bool := ltb y x.
Definition geb (x y : Number) : bool := leb y x.

(** [x || d] on numbers. *)
Definition or_default (x d : Number) : Number :=
  if ToBoolean x then x else d.

(** The white space and line terminators that [parseFloat] and [trim] skip,
    among the code units below 256: TAB, LF, VT, FF, CR, SP and NBSP. *)
Definition isWhiteSpace (c : ascii) : bool :=
  let n := N_of_ascii c in
  (N.leb 9 n && N.leb n 13) || N.eqb n 32 || N.eqb n 160.

Definition digit_of (c : ascii) : option N :=
  let n := N_of_ascii c in
  if N.leb 48 n && N.leb n 57 then Some (n - 48)%N else None.

Fixpoint skipWhiteSpace (s : string) : string :=
  match s with
  | String c s' => if isWhiteSpace c then skipWhiteSpace s' else s
  | EmptyString => s
  end.

(** Drops the white space at the end of a string. *)
Fixpoint trimEnd (s : string) : string :=
  match s with
  | EmptyString => EmptyString
  | String c s' =>
      match trimEnd s' with
      | EmptyString => if isWhiteSpace c then EmptyString else String c EmptyString
      | r => String c r
      end
  end.

(** [String.prototype.trim]. *)
Definition trim (s : string) : string := trimEnd (skipWhiteSpace s).

(** [!s] for a string: only the empty string is falsy. *)
Definition str_not (s : string) : bool :=
  match s with EmptyString => true | _ => false end.

(** [DecimalDigits]: reads the longest run of digits at the head of [s];
    returns its value, its length and the rest of the string. *)
Fixpoint decimalDigits (s : string) (acc : N) (len : nat) : N * nat * string :=
  match s with
  | String c s' =>
      match digit_of c with
      | Some d => decimalDigits s' (10 * acc + d)%N (S len)
      | None => (acc, len, s)
      end
  | EmptyString => (acc, len, s)
  end.

(** [ExponentPart]: [e] or [E], an optional sign and at least one digit.
    When the digits are missing the exponent is not part of the literal. *)
Definition exponentPart (s : string) : Z :=
  match s with
  | String c r =>
      if Ascii.eqb c "e" || Ascii.eqb c "E" then
        let '(neg, r') :=
          match r with
          | String "-" t => (true, t)
          | String "+" t => (false, t)
          | _ => (false, r)
          end in
        let '(v, len, _) := decimalDigits r' 0%N 0%nat in
        match len with
        | O => 0%Z
        | S _ => if neg then (- Z.of_N v)%Z else Z.of_N v
        end
      else 0%Z
  | EmptyString => 0%Z
  end.

(** [StrUnsignedDecimalLiteral]: [Infinity], or digits with an optional
    fraction and exponent; the longest prefix that is one is read, and
    [None] says that no prefix is. *)
Definition strUnsignedDecimalLiteral (s : string) : option (Q + unit) :=
  if String.prefix "Infinity" s then Some (inr tt)
  else
    let '(ip, ni, r1) := decimalDigits s 0%N 0%nat in
    let '(fp, nf, r2) :=
      match r1 with
      | String "." r => decimalDigits r 0%N 0%nat
      | _ => (0%N, 0%nat, r1)
      end in
    match (ni + nf)%nat with
    | O => None
    | S _ =>
        let mantissa := (Z.of_N ip * 10 ^ Z.of_nat nf + Z.of_N fp)%Z in
        let e := (exponentPart r2 - Z.of_nat nf)%Z in
        Some (inl (inject_Z mantissa * Qpower (10 # 1) e)%Q)
    end.

(** A double as a [Number]; the sign of a zero is not kept. *)
Definition of_spec (x : SpecFloat.spec_float) : Number :=
  match x with
  | SpecFloat.S754_zero _ => Finite 0
  | SpecFloat.S754_infinity s => Infinity s
  | SpecFloat.S754_nan => NaN
  | SpecFloat.S754_finite s m e =>
      Finite ((if s then -1 else 1) * inject_Z (Zpos m) * Qpower (2 # 1) e)%Q
  end.

(** The double nearest to a rational number, a tie going to the even
    mantissa: the quotient of its numerator and denominator, rounded once. *)
Definition roundToDouble (q : Q) : Number :=
  match Qnum q with
  | Z0 => Finite 0
  | Zpos n =>
      of_spec (SpecFloat.SFdiv FloatOps.prec FloatOps.emax
                 (SpecFloat.S754_finite false n 0)
                 (SpecFloat.S754_finite false (Qden q) 0))
  | Zneg n =>
      of_spec (SpecFloat.SFdiv FloatOps.prec FloatOps.emax
                 (SpecFloat.S754_finite true n 0)
                 (SpecFloat.S754_finite false (Qden q) 0))
  end.

(** [parseFloat]: skips leading white space, reads an optional sign and the
    longest decimal literal, and rounds its value to a double; [NaN] when
    there is no literal. *)
Definition parseFloat (s : string) : Number :=
  let t := skipWhiteSpace s in
  let '(neg, u) :=
    match t with
    | String "-" r => (true, r)
    | String "+" r => (false, r)
    | _ => (false, t)
    end in
  match strUnsignedDecimalLiteral u with
  | None => NaN
  | Some (inr _) => Infinity neg
  | Some (inl q) => roundToDouble (if neg then Qopp q else q)
  end.

(** [Math.round]: the nearest integer, a tie going up. *)
Definition Math_round (x : R) : Z := Zfloor (x + / 2).

(** [Math.atan2 y x], the angle of the point [(x, y)]. *)
Definition Math_atan2 (y x : R) : R :=
  if Rlt_dec 0 x then atan (y / x)
  else if Rlt_dec x 0 then
    if Rle_dec 0 y then atan (y / x) + PI else atan (y / x) - PI
  else if Rlt_dec 0 y then PI / 2
  else if Rlt_dec y 0 then - (PI / 2)
  else 0.

End JS.

(** ** The state of [PostParcelScreen] *)

Inductive Category : Type := documents | clothing | food | electronics | other.

Inductive Timing : Type := asap | within_2h | within_4h | scheduled.

Definition Timing_eqb (a b : Timing) : bool :=
  match a, b with
  | asap, asap | within_2h, within_2h
  | within_4h, within_4h | scheduled, scheduled => true
  | _, _ => false
  end.

(** One field per [useState] of the component. *)
Record State : Type := mkState {
  loading : bool;
  step : nat;
  pickupAddress : string;
  pickupLat : R;
  pickupLng : R;
  dropoffAddress : string;
  dropoffLat : R;
  dropoffLng : R;
  category : Category;
  weight : string;
  declaredValue : string;
  photos : list string;
  timing : Timing;
  calculatedPrice : Z
}.

(** The initial values given to [useState]: pickup defaults to Panaji and
    drop-off to Margao. *)
Definition initialState : State := {|
  loading := false;
  step := 1;
  pickupAddress := "";
  pickupLat := 15.4909;
  pickupLng := 73.8278;
  dropoffAddress := "";
  dropoffLat := 15.2832;
  dropoffLng := 73.9685;
  category := documents;
  weight := "";
  declaredValue := "";
  photos := [];
  timing := asap;
  calculatedPrice := 0
|}.

Definition setLoading (b : bool) (s : State) : State :=
  mkState b (step s) (pickupAddress s) (pickupLat s) (pickupLng s)
    (dropoffAddress s) (dropoffLat s) (dropoffLng s) (category s) (weight s)
    (declaredValue s) (photos s) (timing s) (calculatedPrice s).

Definition setStep (n : nat) (s : State) : State :=
  mkState (loading s) n (pickupAddress s) (pickupLat s) (pickupLng s)
    (dropoffAddress s) (dropoffLat s) (dropoffLng s) (category s) (weight s)
    (declaredValue s) (photos s) (timing s) (calculatedPrice s).

Definition setPickupAddress (a : string) (s : State) : State :=
  mkState (loading s) (step s) a (pickupLat s) (pickupLng s)
    (dropoffAddress s) (dropoffLat s) (dropoffLng s) (category s) (weight s)
    (declaredValue s) (photos s) (timing s) (calculatedPrice s).

Definition setDropoffAddress (a : string) (s : State) : State :=
  mkState (loading s) (step s) (pickupAddress s) (pickupLat s) (pickupLng s)
    a (dropoffLat s) (dropoffLng s) (category s) (weight s)
    (declaredValue s) (photos s) (timing s) (calculatedPrice s).

Definition setCategory (c : Category) (s : State) : State :=
  mkState (loading s) (step s) (pickupAddress s) (pickupLat s) (pickupLng s)
    (dropoffAddress s) (dropoffLat s) (dropoffLng s) c (weight s)
    (declaredValue s) (photos s) (timing s) (calculatedPrice s).

Definition setWeight (w : string) (s : State) : State :=
  mkState (loading s) (step s) (pickupAddress s) (pickupLat s) (pickupLng s)
    (dropoffAddress s) (dropoffLat s) (dropoffLng s) (category s) w
    (declaredValue s) (photos s) (timing s) (calculatedPrice s).

Definition setDeclaredValue (v : string) (s : State) : State :=
  mkState (loading s) (step s) (pickupAddress s) (pickupLat s) (pickupLng s)
    (dropoffAddress s) (dropoffLat s) (dropoffLng s) (category s) (weight s)
    v (photos s) (timing s) (calculatedPrice s).

Definition setPhotos (p : list string) (s : State) : State :=
  mkState (loading s) (step s) (pickupAddress s) (pickupLat s) (pickupLng s)
    (dropoffAddress s) (dropoffLat s) (dropoffLng s) (category s) (weight s)
    (declaredValue s) p (timing s) (calculatedPrice s).

Definition setTiming (t : Timing) (s : State) : State :=
  mkState (loading s) (step s) (pickupAddress s) (pickupLat s) (pickupLng s)
    (dropoffAddress s) (dropoffLat s) (dropoffLng s) (category s) (weight s)
    (declaredValue s) (photos s) t (calculatedPrice s).

Definition setCalculatedPrice (p : Z) (s : State) : State :=
  mkState (loading s) (step s) (pickupAddress s) (pickupLat s) (pickupLng s)
    (dropoffAddress s) (dropoffLat s) (dropoffLng s) (category s) (weight s)
    (declaredValue s) (photos s) (timing s) p.

(** ** [calculateDistance] *)

(** The intermediate [a] of the Haversine formula, from the coordinates in
    degrees. *)
Definition haversine_a (lat1 lng1 lat2 lng2 : R) : R :=
  let lat1Rad := (lat1 * PI) / 180 in
  let lat2Rad := (lat2 * PI) / 180 in
  let dlat := ((lat2 - lat1) * PI) / 180 in
  let dlng := ((lng2 - lng1) * PI) / 180 in
  sin (dlat / 2) * sin (dlat / 2) +
  cos lat1Rad * cos lat2Rad * sin (dlng / 2) * sin (dlng / 2).

(** The body of [calculateDistance], at the coordinates it reads from the
    state. *)
Definition distanceBetween (lat1 lng1 lat2 lng2 : R) : R :=
  let R_km := 6371 in
  let a := haversine_a lat1 lng1 lat2 lng2 in
  let c := 2 * JS.Math_atan2 (sqrt a) (sqrt (1 - a)) in
  R_km * c.

Definition calculateDistance (s : State) : R :=
  distanceBetween (pickupLat s) (pickupLng s) (dropoffLat s) (dropoffLng s).

(** ** [calculatePrice] *)

(** The distance tiers: the value of [price] after the first [if] chain. *)
Definition tierPrice (distance : R) : R :=
  if Rlt_dec distance 0.5 then 20
  else if Rlt_dec distance 1.0 then 25
  else if Rlt_dec distance 2.0 then 30
  else 25 + 4 * distance.

(** [weightNum >= 2 && weightNum <= 5]. *)
Definition weightInBand (weightNum : JS.Number) : bool :=
  JS.geb weightNum (JS.Finite 2) && JS.leb weightNum (JS.Finite 5).

(** The body of [calculatePrice] after [distance] has been computed. *)
Definition priceFor (distance : R) (weight : string) (timing : Timing) : Z :=
  let weightNum := JS.or_default (JS.parseFloat weight) (JS.Finite 0.5) in
  let price := tierPrice distance in
  let price := if weightInBand weightNum then price * 1.2 else price in
  let price := if Timing_eqb timing asap then price * 1.15 else price in
  JS.Math_round price.

Definition calculatePrice (s : State) : Z :=
  let distance := calculateDistance s in
  priceFor distance (weight s) (timing s).

(** ** The wizard: [handleNextStep], [handleSubmit] and the buttons *)

(** The body of the request sent to [/deliveries]. *)
Record DeliveryData : Type := {
  pickup_address : string;
  pickup_lat : R;
  pickup_lng : R;
  dropoff_address : string;
  dropoff_lat : R;
  dropoff_lng : R;
  parcel_category : Category;
  weight_kg : JS.Number;
  declared_value : JS.Number;
  parcel_photos_base64 : list string;
  timing_preference : Timing
}.

(** What a handler does besides updating the state. *)
Inductive Effect : Type :=
  | Alert (title message : string)
  | ApiPost (path : string) (body : DeliveryData).

Definition handleNextStep (s : State) : State * list Effect :=
  if Nat.eqb (step s) 1 then
    if JS.str_not (JS.trim (pickupAddress s))
       || JS.str_not (JS.trim (dropoffAddress s))
    then (s, [Alert "Error" "Please enter both pickup and dropoff addresses"])
    else (setStep 2 s, [])
  else if Nat.eqb (step s) 2 then
    if JS.str_not (weight s)
       || JS.leb (JS.parseFloat (weight s)) (JS.Finite 0)
       || JS.gtb (JS.parseFloat (weight s)) (JS.Finite 5)
    then (s, [Alert "Error" "Weight must be between 0.1 and 5 kg"])
    else if JS.str_not (declaredValue s)
            || JS.leb (JS.parseFloat (declaredValue s)) (JS.Finite 0)
    then (s, [Alert "Error" "Please enter declared value"])
    else if Nat.eqb (List.length (photos s)) 0
    then (s, [Alert "Info" "Please add at least one photo of the parcel"])
    else (setStep 3 s, [])
  else if Nat.eqb (step s) 3 then
    let price := calculatePrice s in
    (setStep 4 (setCalculatedPrice price s), [])
  else (s, []).

Definition deliveryData (s : State) : DeliveryData := {|
  pickup_address := JS.trim (pickupAddress s);
  pickup_lat := pickupLat s;
  pickup_lng := pickupLng s;
  dropoff_address := JS.trim (dropoffAddress s);
  dropoff_lat := dropoffLat s;
  dropoff_lng := dropoffLng s;
  parcel_category := category s;
  weight_kg := JS.parseFloat (weight s);
  declared_value := JS.parseFloat (declaredValue s);
  parcel_photos_base64 := photos s;
  timing_preference := timing s
|}.

(** [handleSubmit] up to its [await]: the request is sent and the spinner
    is on. *)
Definition handleSubmit (s : State) : State * list Effect :=
  (setLoading true s, [ApiPost "/deliveries" (deliveryData s)]).

(** [error.response?.data?.detail || 'Failed to create delivery']: a
    missing or empty detail gives the fixed text. *)
Definition errorMessage (detail : option string) : string :=
  match detail with
  | Some message =>
      if JS.str_not message then "Failed to create delivery" else message
  | None => "Failed to create delivery"
  end.

(** The rest of [handleSubmit], once the request has settled: the id of the
    created delivery, or the [detail] of the error response if it has one. *)
Definition handleSubmitSettled (response : string + option string) (s : State)
  : State * list Effect :=
  (setLoading false s,
   [match response with
    | inl delivery_id =>
        Alert "Success!"
          ("Your delivery has been posted. Delivery ID: " ++ delivery_id)
    | inr detail => Alert "Error" (errorMessage detail)
    end]).

(** [pickImage], given what the picker returned ([None] when it was
    cancelled or has no base64 data). *)
Definition pickImage (picked : option string) (s : State) : State :=
  match picked with
  | Some base64 => setPhotos (List.app (photos s) [String.append "data:image/jpeg;base64," base64]) s
  | None => s
  end.

(** [photos.filter((_, i) => i !== index)]. *)
Fixpoint removeAt {A : Type} (index : nat) (l : list A) : list A :=
  match l, index with
  | [], _ => []
  | _ :: t, O => t
  | h :: t, S i => h :: removeAt i t
  end.

(** What the user can do.  Each control exists only while the step that
    renders it is shown. *)
Inductive Event : Type :=
  | ChangePickupAddress (text : string)
  | ChangeDropoffAddress (text : string)
  | SelectCategory (c : Category)
  | ChangeWeight (text : string)
  | ChangeDeclaredValue (text : string)
  | TapAddPhoto (picked : option string)
  | TapRemovePhoto (index : nat)
  | SelectTiming (t : Timing)
  | PressBack
  | PressNext
  | SubmitSettled (response : string + option string).

Definition dispatch (s : State) (e : Event) : State * list Effect :=
  match e with
  | ChangePickupAddress text =>
      if Nat.eqb (step s) 1 then (setPickupAddress text s, []) else (s, [])
  | ChangeDropoffAddress text =>
      if Nat.eqb (step s) 1 then (setDropoffAddress text s, []) else (s, [])
  | SelectCategory c =>
      if Nat.eqb (step s) 2 then (setCategory c s, []) else (s, [])
  | ChangeWeight text =>
      if Nat.eqb (step s) 2 then (setWeight text s, []) else (s, [])
  | ChangeDeclaredValue text =>
      if Nat.eqb (step s) 2 then (setDeclaredValue text s, []) else (s, [])
  | TapAddPhoto picked =>
      if Nat.eqb (step s) 2 && Nat.ltb (List.length (photos s)) 3
      then (pickImage picked s, []) else (s, [])
  | TapRemovePhoto index =>
      if Nat.eqb (step s) 2
      then (setPhotos (removeAt index (photos s)) s, []) else (s, [])
  | SelectTiming t =>
      if Nat.eqb (step s) 3 then (setTiming t s, []) else (s, [])
  | PressBack =>
      if Nat.ltb 1 (step s) then (setStep (step s - 1) s, []) else (s, [])
  | PressNext =>
      if loading s then (s, [])
      else if Nat.eqb (step s) 4 then handleSubmit s else handleNextStep s
  | SubmitSettled response =>
      if loading s then handleSubmitSettled response s else (s, [])
  end.

(** Runs a sequence of events; the effects are collected in order. *)
Fixpoint run (s : State) (es : list Event) : State * list Effect :=
  match es with
  | [] => (s, [])
  | e :: es' =>
      let '(s1, out1) := dispatch s e in
      let '(s2, out2) := run s1 es' in
      (s2, List.app out1 out2)
  end.

(** ** [calculatePrice] in binary64 *)

Module Binary64.

Import PrimFloat.
Local Open Scope float_scope.

(** The decimal constants of the source are read as the nearest doubles. *)
#[local] Set Warnings "-inexact-float".

(** [Math.round]: the integer nearest to [x], a tie going up; the sum
    [x + 1/2] under the floor is the exact one.  A number with no
    fractional bits, an infinity and [NaN] are returned as they are. *)
Definition Math_round (x : float) : float :=
  match FloatOps.Prim2SF x with
  | SpecFloat.S754_finite s m e =>
      if (0 <=? e)%Z then x
      else
        let n := ((2 * (if s then Zneg m else Zpos m) + 2 ^ (- e))
                  / 2 ^ (1 - e))%Z in
        match n with
        | Z0 => if s then neg_zero else zero
        | _ =>
            FloatOps.SF2Prim
              (SpecFloat.binary_normalize FloatOps.prec FloatOps.emax
                 n 0 false)
        end
  | _ => x
  end.

(** The distance tiers: the value of [price] after the first [if] chain. *)
Definition tierPrice (distance : float) : float :=
  if distance <? 0.5 then 20
  else if distance <? 1.0 then 25
  else if distance <? 2.0 then 30
  else 25 + 4 * distance.

(** The body of [calculatePrice] after [distance] has been computed, every
    product rounded to a double as it is made. *)
Definition priceFor (distance : float) (weight : string) (timing : Timing)
  : float :=
  let weightNum := JS.or_default (JS.parseFloat weight) (JS.Finite 0.5) in
  let price := tierPrice distance in
  let price := if weightInBand weightNum then price * 1.2 else price in
  let price := if Timing_eqb timing asap then price * 1.15 else price in
  Math_round price.

(** The pricing rule as the specification words it.

    base(d) = 20 if d < 0.5, 25 if 0.5 <= d < 1.0, 30 if 1.0 <= d < 2.0,
    and 25 + 4*d otherwise. *)
Definition base (d : float) : float :=
  if d <? 0.5 then 20
  else if (0.5 <=? d) && (d <? 1.0) then 25
  else if (1.0 <=? d) && (d <? 2.0) then 30
  else 25 + 4 * d.

(** m_w = 1.2 if 2.0 <= w <= 5.0 and 1 otherwise; a weight that is not a
    finite number is in no interval. *)
Definition m_w (w : JS.Number) : float :=
  match w with
  | JS.Finite q => if Qle_bool 2 q && Qle_bool q 5 then 1.2 else 1
  | _ => 1
  end.

(** m_t = 1.15 if t = asap and 1 otherwise. *)
Definition m_t (t : Timing) : float :=
  match t with asap => 1.15 | _ => 1 end.

(** Weight first, timing second, one rounding at the end. *)
Definition price (d : float) (w : JS.Number) (t : Timing) : float :=
  Math_round (base d * m_w w * m_t t).

(** The rule with the timing multiplier first. *)
Definition priceTimingFirst (d : float) (w : JS.Number) (t : Timing)
  : float :=
  Math_round (base d * m_t t * m_w w).

(** The rule with a rounding after each multiplier. *)
Definition priceRoundedTwice (d : float) (w : JS.Number) (t : Timing)
  : float :=
  Math_round (Math_round (base d * m_w w) * m_t t).

End Binary64.

(** ** Scenarios *)

(** The state in which pickup and drop-off have changed places. *)
Definition swapEndpoints (s : State) : State :=
  mkState (loading s) (step s) (dropoffAddress s) (dropoffLat s) (dropoffLng s)
    (pickupAddress s) (pickupLat s) (pickupLng s) (category s) (weight s)
    (declaredValue s) (photos s) (timing s) (calculatedPrice s).

(** The worked example: the default coordinates (Panaji to Margao), a
    0.5 kg parcel and the timing [within_2h]. *)
Definition workedExample : State :=
  setTiming within_2h (setWeight "0.5" initialState).

(** The parcel form of step 2, filled in. *)
Definition parcelForm (w v : string) (p : list string) : State :=
  setPhotos p (setDeclaredValue v (setWeight w (setStep 2 initialState))).

(** What the user does to post a parcel with the weight field [w]: both
    addresses, the form of step 2 with one photo, the default timing, and
    the button of the last step. *)
Definition postParcel (w : string) : list Event :=
  [ChangePickupAddress "Panaji"; ChangeDropoffAddress "Margao"; PressNext;
   ChangeWeight w; ChangeDeclaredValue "500"; TapAddPhoto (Some "AAAA");
   PressNext; PressNext; PressNext].

(** ** The OTP manager *)

Module OTP.

Inductive Outcome : Type := Success | Expired | AlreadyUsed | Mismatch.

(** What the delivery record keeps of one code. *)
Record Otp (Digest : Type) : Type := mkOtp {
  stored_hash : Digest;
  attempt_count : nat;
  expiry : Z;
  used_flag : bool
}.

Arguments mkOtp {Digest}.
Arguments stored_hash {Digest}.
Arguments attempt_count {Digest}.
Arguments expiry {Digest}.
Arguments used_flag {Digest}.

(** The three tests of [verify]. *)
Inductive Check : Type := CheckExpiry | CheckUsed | CheckHash.

(** The failure a test reports. *)
Definition failure (c : Check) : Outcome :=
  match c with
  | CheckExpiry => Expired
  | CheckUsed => AlreadyUsed
  | CheckHash => Mismatch
  end.

(** An order of the tests that leaves none out. *)
Definition complete (order : list Check) : Prop :=
  In CheckExpiry order /\ In CheckUsed order /\ In CheckHash order.

Section Verify.

Context {Code Digest : Type}.
Variable hash : Code -> Digest.
Variable Digest_eqb : Digest -> Digest -> bool.

(** Modelled from the spec: the three failure conditions of [verify], whose
    code is not among the sources: now > expiry; the used flag is set; the
    hash of the submitted code is not the stored hash. *)
Definition fails (c : Check) (now : Z) (stored : Digest)
    (submitted_code : Code) (expires : Z) (used : bool) : bool :=
  match c with
  | CheckExpiry => (expires <? now)%Z
  | CheckUsed => used
  | CheckHash => negb (Digest_eqb (hash submitted_code) stored)
  end.

(** Modelled from the spec: [verify] of the OTP manager.  It fails with
    [Expired], [AlreadyUsed] or [Mismatch] under the conditions above (a
    mismatch increments the attempt count), and succeeds when none holds.
    The specification does not say which failure is reported when several
    conditions hold: [order] is the order in which the tests are made, and
    the first that fails is reported.  The second component is the attempt
    count after the call. *)
Fixpoint verify (order : list Check) (now : Z) (stored : Digest)
    (submitted_code : Code) (attempts : nat) (expires : Z) (used : bool)
  : Outcome * nat :=
  match order with
  | [] => (Success, attempts)
  | c :: rest =>
      if fails c now stored submitted_code expires used
      then (failure c,
            match c with CheckHash => S attempts | _ => attempts end)
      else verify rest now stored submitted_code attempts expires used
  end.

(** Modelled from the spec: the caller of [verify].  It keeps the attempt
    count that [verify] reports and sets the used flag when [verify]
    succeeds. *)
Definition submit (order : list Check) (now : Z) (o : Otp Digest)
    (submitted_code : Code) : Outcome * Otp Digest :=
  let '(outcome, attempts) :=
    verify order now (stored_hash o) submitted_code (attempt_count o)
      (expiry o) (used_flag o) in
  (outcome,
   mkOtp (stored_hash o) attempts (expiry o)
     (match outcome with Success => true | _ => used_flag o end)).

End Verify.

End OTP.

(** ** What holds of the wizard in every state it can reach *)

(** The bodies of the requests among the effects, in order. *)
Fixpoint posted (out : list Effect) : list DeliveryData :=
  match out with
  | [] => []
  | ApiPost _ body :: out' => body :: posted out'
  | Alert _ _ :: out' => posted out'
  end.

(** How many requests have settled in a sequence of events. *)
Fixpoint settled (es : list Event) : nat :=
  match es with
  | [] => 0
  | SubmitSettled _ :: es' => S (settled es')
  | _ :: es' => settled es'
  end.

(** The coordinates are those the component starts with. *)
Definition defaultCoordinates (s : State) : Prop :=
  pickupLat s = pickupLat initialState /\
  pickupLng s = pickupLng initialState /\
  dropoffLat s = dropoffLat initialState /\
  dropoffLng s = dropoffLng initialState.

(** Both addresses hold more than white space. *)
Definition addressesEntered (s : State) : Prop :=
  JS.trim (pickupAddress s) <> "" /\ JS.trim (dropoffAddress s) <> "".

(** The parcel form is one that step 2 lets through. *)
Definition parcelAccepted (s : State) : Prop :=
  weight s <> "" /\
  JS.leb (JS.parseFloat (weight s)) (JS.Finite 0) = false /\
  JS.gtb (JS.parseFloat (weight s)) (JS.Finite 5) = false /\
  declaredValue s <> "" /\
  JS.leb (JS.parseFloat (declaredValue s)) (JS.Finite 0) = false /\
  photos s <> [].

Definition wizardInvariant (s : State) : Prop :=
  (1 <= step s <= 4)%nat /\
  (List.length (photos s) <= 3)%nat /\
  defaultCoordinates s /\
  ((2 <= step s)%nat -> addressesEntered s) /\
  ((3 <= step s)%nat -> parcelAccepted s) /\
  (step s = 4%nat -> calculatedPrice s = calculatePrice s).

(** What can be said of the body of every request the screen sends. *)
Definition validatedBody (body : DeliveryData) : Prop :=
  pickup_address body <> "" /\
  dropoff_address body <> "" /\
  match weight_kg body with
  | JS.NaN => True
  | JS.Infinity _ => False
  | JS.Finite q => (0 < q <= 5)%Q
  end /\
  match declared_value body with
  | JS.NaN => True
  | JS.Infinity negative => negative = false
  | JS.Finite q => (0 < q)%Q
  end /\
  (1 <= List.length (parcel_photos_base64 body) <= 3)%nat /\
  pickup_lat body = pickupLat initialState /\
  pickup_lng body = pickupLng initialState /\
  dropoff_lat body = dropoffLat initialState /\
  dropoff_lng body = dropoffLng initialState.

(** A string of white space only (the empty string is one). *)
Fixpoint allWhiteSpace (s : string) : bool :=
  match s with
  | EmptyString => true
  | String c s' => JS.isWhiteSpace c && allWhiteSpace s'
  end.

(** ** The session: [utils/api.ts] and the auth store *)

(** [AsyncStorage]: a store of strings under string keys. *)
Module AsyncStorage.

Definition Storage : Type := string -> option string.

Definition empty : Storage := fun _ => None.

Definition getItem (key : string) (st : Storage) : option string := st key.

Definition setItem (key value : string) (st : Storage) : Storage :=
  fun k => if String.eqb k key then Some value else st k.

Definition removeItem (key : string) (st : Storage) : Storage :=
  fun k => if String.eqb k key then None else st k.

End AsyncStorage.

Module Api.

(** The part of an axios request the interceptor looks at: its headers, an
    object used as a map. *)
Record RequestConfig : Type := mkConfig {
  url : string;
  headers : string -> option string
}.

(** [config.headers.Authorization = ...]. *)
Definition setAuthorization (value : string) (config : RequestConfig)
  : RequestConfig :=
  mkConfig (url config)
    (fun h => if String.eqb h "Authorization" then Some value
              else headers config h).

(** The request interceptor: the stored token, when there is one that is
    not empty, goes into the [Authorization] header. *)
Definition requestInterceptor (st : AsyncStorage.Storage)
    (config : RequestConfig) : RequestConfig :=
  match AsyncStorage.getItem "session_token" st with
  | Some token =>
      if JS.str_not token then config
      else setAuthorization ("Bearer " ++ token) config
  | None => config
  end.

(** [error.response?.status]: [None] when there was no response. *)
Record ResponseError : Type := mkError {
  status : option nat;
  detail : option string
}.

(** The response interceptor on an error: a 401 removes the session from
    the storage; the error is rejected again in every case. *)
Definition responseErrorInterceptor (st : AsyncStorage.Storage)
    (error : ResponseError) : AsyncStorage.Storage * ResponseError :=
  match status error with
  | Some code =>
      if Nat.eqb code 401
      then (AsyncStorage.removeItem "user"
              (AsyncStorage.removeItem "session_token" st), error)
      else (st, error)
  | None => (st, error)
  end.

End Api.

Module AuthStore.

Inductive Role : Type := sender | carrier | admin.

Record User : Type := mkUser {
  user_id : string;
  email : string;
  name : string;
  picture : option string;
  role : Role;
  phone_whatsapp : option string;
  is_active : bool
}.

Record AuthState : Type := mkAuth {
  user : option User;
  sessionToken : option string;
  isLoading : bool
}.

(** The store as [create] builds it. *)
Definition initialAuth : AuthState := mkAuth None None true.

Definition setUser (u : option User) (a : AuthState) : AuthState :=
  mkAuth u (sessionToken a) (isLoading a).

Definition setSessionToken (token : option string) (a : AuthState)
  : AuthState :=
  mkAuth (user a) token (isLoading a).

Section Json.

(** [JSON.stringify] on users, and [JSON.parse]: [None] is a parse that
    throws, [Some None] one that gives [null]. *)
Variable JSON_stringify : User -> string.
Variable JSON_parse : string -> option (option User).

Definition login (u : User) (token : string)
    (st : AsyncStorage.Storage) (a : AuthState)
  : AsyncStorage.Storage * AuthState :=
  let st := AsyncStorage.setItem "session_token" token st in
  let st := AsyncStorage.setItem "user" (JSON_stringify u) st in
  (st, mkAuth (Some u) (Some token) (isLoading a)).

Definition logout (st : AsyncStorage.Storage) (a : AuthState)
  : AsyncStorage.Storage * AuthState :=
  let st := AsyncStorage.removeItem "session_token" st in
  let st := AsyncStorage.removeItem "user" st in
  (st, mkAuth None None (isLoading a)).

(** [initialize] only reads the storage. *)
Definition initialize (st : AsyncStorage.Storage) (a : AuthState)
  : AuthState :=
  let token := AsyncStorage.getItem "session_token" st in
  let userStr := AsyncStorage.getItem "user" st in
  match token, userStr with
  | Some token, Some userStr =>
      if negb (JS.str_not token) && negb (JS.str_not userStr) then
        match JSON_parse userStr with
        | Some u => mkAuth u (Some token) false
        | None => mkAuth (user a) (sessionToken a) false
        end
      else mkAuth (user a) (sessionToken a) false
  | _, _ => mkAuth (user a) (sessionToken a) false
  end.

End Json.

(** Where the index screen sends the user. *)
Inductive Route : Type := Spinner | Home | Login.

Definition Index (a : AuthState) : Route :=
  if isLoading a then Spinner
  else match user a with
       | Some _ => Home
       | None => Login
       end.

(** [{ ...user, role: newRole }]. *)
Definition withRole (newRole : Role) (u : User) : User :=
  mkUser (user_id u) (email u) (name u) (picture u) newRole
    (phone_whatsapp u) (is_active u).

Definition isSender (a : AuthState) : bool :=
  match user a with
  | Some u => match role u with sender => true | _ => false end
  | None => false
  end.

(** [handleRoleSwitch] of the home screen, given whether the request to
    [/users/role] succeeds; the second component is the role asked for,
    when a request is made. *)
Definition handleRoleSwitch (succeeds : bool) (a : AuthState)
  : AuthState * option Role :=
  match user a with
  | None => (a, None)
  | Some u =>
      let newRole := if isSender a then carrier else sender in
      (if succeeds then setUser (Some (withRole newRole u)) a else a,
       Some newRole)
  end.

End AuthStore.

(** ** Proof automation *)

(** Reduces the projections and the setters of the state, and nothing
    else. *)
Ltac state_simpl :=
  cbn [fst snd loading step pickupAddress pickupLat pickupLng dropoffAddress
       dropoffLat dropoffLng category weight declaredValue photos timing
       calculatedPrice setLoading setStep setPickupAddress setDropoffAddress
       setCategory setWeight setDeclaredValue setPhotos setTiming
       setCalculatedPrice pickImage handleSubmit handleSubmitSettled] in *.

(** ** Facts about the runtime model *)

Lemma Math_round_bounds (x : R) :
  IZR (JS.Math_round x) - / 2 <= x < IZR (JS.Math_round x) + / 2.
Proof.
  unfold JS.Math_round.
  pose proof (Zfloor_bound (x + / 2)) as [Hlo Hhi].
  split; lra.
Qed.

Lemma Math_round_eq (z : Z) (x : R) :
  IZR z - / 2 <= x < IZR z + / 2 -> JS.Math_round x = z.
Proof.
  intros [Hlo Hhi]. unfold JS.Math_round.
  apply Zfloor_eq. split; lra.
Qed.

Lemma Math_round_le (x y : R) :
  x <= y -> (JS.Math_round x <= JS.Math_round y)%Z.
Proof.
  intros Hxy. unfold JS.Math_round. apply Zfloor_le. lra.
Qed.

Lemma Math_round_IZR (z : Z) : JS.Math_round (IZR z) = z.
Proof.
  apply Math_round_eq. split; lra.
Qed.

Lemma or_default_NaN (d : JS.Number) : JS.or_default JS.NaN d = d.
Proof. reflexivity. Qed.

Lemma or_default_Infinity (n : bool) (d : JS.Number) :
  JS.or_default (JS.Infinity n) d = JS.Infinity n.
Proof. reflexivity. Qed.

Lemma or_default_Finite (q : Q) (d : JS.Number) :
  JS.or_default (JS.Finite q) d = if Qeq_bool q 0 then d else JS.Finite q.
Proof.
  unfold JS.or_default, JS.ToBoolean. destruct (Qeq_bool q 0); reflexivity.
Qed.

(** A number that is zero is not in the weight band. *)
Lemma Qeq_0_not_ge_2 (q : Q) : Qeq_bool q 0 = true -> Qle_bool 2 q = false.
Proof.
  intros Hz. apply Qeq_bool_iff in Hz.
  destruct (Qle_bool 2 q) eqn:Hle; [ | reflexivity].
  apply Qle_bool_iff in Hle. rewrite Hz in Hle.
  exfalso. revert Hle. unfold Qle. simpl. lia.
Qed.

(** The band test on the defaulted weight agrees with the band test on the
    parsed weight: the default 0.5, and what it replaces, are outside. *)
Lemma weightInBand_or_default (p : JS.Number) :
  weightInBand (JS.or_default p (JS.Finite 0.5)) =
  match p with
  | JS.Finite q => Qle_bool 2 q && Qle_bool q 5
  | _ => false
  end.
Proof.
  destruct p as [ | n | q].
  - reflexivity.
  - destruct n; reflexivity.
  - rewrite or_default_Finite.
    destruct (Qeq_bool q 0) eqn:Hz.
    + rewrite (Qeq_0_not_ge_2 q Hz). reflexivity.
    + reflexivity.
Qed.

Lemma tierPrice_ge_20 (d : R) : 20 <= tierPrice d.
Proof.
  unfold tierPrice.
  repeat match goal with |- context [Rlt_dec ?a ?b] => destruct (Rlt_dec a b) end;
    lra.
Qed.

(** ** The price formula in binary64 *)

Section PriceFormula.

Import PrimFloat.

(** Multiplying a double by 1 gives it back: the product of the mantissa
    and 2^52 is shifted right by 52 places, with nothing lost. *)
Lemma SFmul_one (x : SpecFloat.spec_float) :
  SpecFloat.valid_binary FloatOps.prec FloatOps.emax x = true ->
  SpecFloat.SFmul FloatOps.prec FloatOps.emax x
    (SpecFloat.S754_finite false 4503599627370496 (-52)) = x.
Proof.
  destruct x as [s | s | | s m e]; intros Hv; cbn [SpecFloat.SFmul].
  - rewrite xorb_false_r. reflexivity.
  - rewrite xorb_false_r. reflexivity.
  - reflexivity.
  - cbn [SpecFloat.valid_binary] in Hv.
    unfold SpecFloat.bounded, SpecFloat.canonical_mantissa in Hv.
    apply andb_true_iff in Hv. destruct Hv as [Hc Hb].
    apply Z.eqb_eq in Hc. apply Z.leb_le in Hb.
    unfold SpecFloat.fexp, SpecFloat.emin in Hc. cbn in Hb.
    rewrite xorb_false_r, Pos.mul_comm. cbn [Pos.mul].
    unfold SpecFloat.binary_round_aux, SpecFloat.shr_fexp.
    cbn [SpecFloat.Zdigits2 SpecFloat.digits2_pos].
    unfold SpecFloat.fexp, SpecFloat.emin.
    match goal with
    | |- context [SpecFloat.shr ?r ?e0 ?n] =>
        replace n with 52%Z
          by (unfold FloatOps.prec, FloatOps.emax in *;
              change IntDef.Z.max with Z.max in *;
              change PosDef.Pos.succ with Pos.succ in *; lia)
    end.
    cbn [SpecFloat.shr SpecFloat.shr_record_of_loc SpecFloat.iter_pos
         SpecFloat.shr_1 orb].
    cbn [SpecFloat.shr_m SpecFloat.loc_of_shr_record
         SpecFloat.round_nearest_even SpecFloat.Zdigits2].
    replace (e + -52 + 52)%Z with e by lia.
    match goal with
    | |- context [SpecFloat.shr ?r ?e0 ?n] =>
        replace n with 0%Z
          by (unfold FloatOps.prec, FloatOps.emax in *;
              change IntDef.Z.max with Z.max in *; lia)
    end.
    cbn [SpecFloat.shr SpecFloat.shr_m SpecFloat.shr_record_of_loc].
    replace (e <=? FloatOps.emax - FloatOps.prec)%Z with true
      by (symmetry; apply Z.leb_le; exact Hb).
    reflexivity.
Qed.

Lemma mul_one (x : float) : (x * 1)%float = x.
Proof.
  apply FloatAxioms.Prim2SF_inj. rewrite FloatAxioms.mul_spec.
  change (FloatOps.Prim2SF 1)
    with (SpecFloat.S754_finite false 4503599627370496 (-52)).
  apply SFmul_one. apply FloatAxioms.Prim2SF_valid.
Qed.

(** Two doubles of which none is [NaN] compare the same from both sides. *)
Lemma SFcompare_antisym (x y : SpecFloat.spec_float) :
  SpecFloat.SFcompare y x =
  match SpecFloat.SFcompare x y with
  | Some c => Some (CompOpp c)
  | None => None
  end.
Proof.
  destruct x as [sx | sx | | sx mx ex]; destruct y as [sy | sy | | sy my ey];
    cbn [SpecFloat.SFcompare]; try reflexivity;
    try (destruct sx; reflexivity); try (destruct sy; reflexivity);
    try (destruct sx; destruct sy; reflexivity).
  rewrite (Z.compare_antisym ex ey).
  replace (Pos.compare_cont Eq my mx)
    with (CompOpp (Pos.compare_cont Eq mx my))
    by (rewrite Pos.compare_cont_antisym; reflexivity).
  destruct sx; destruct sy; try reflexivity;
    destruct (ex ?= ey)%Z; cbn [CompOpp]; try reflexivity;
    destruct (Pos.compare_cont Eq mx my); reflexivity.
Qed.

(** A double that is below some number and not below [c] is at least [c],
    for a [c] that is a number. *)
Lemma not_below_is_above (d c c' : float) :
  (c =? c)%float = true ->
  (d <? c)%float = false -> (d <? c')%float = true ->
  (c <=? d)%float = true.
Proof.
  rewrite FloatAxioms.eqb_spec, !FloatAxioms.ltb_spec, FloatAxioms.leb_spec.
  unfold SpecFloat.SFeqb, SpecFloat.SFltb, SpecFloat.SFleb.
  rewrite (SFcompare_antisym (FloatOps.Prim2SF d) (FloatOps.Prim2SF c)).
  set (x := FloatOps.Prim2SF d). set (y := FloatOps.Prim2SF c).
  set (z := FloatOps.Prim2SF c').
  intros Hc Hlt Hlt'.
  destruct (SpecFloat.SFcompare x y) as [[ | | ] | ] eqn:E;
    try reflexivity; try discriminate Hlt.
  exfalso.
  destruct x; destruct y; destruct z; cbn in E, Hc, Hlt'; discriminate.
Qed.

Lemma tierPrice_base (d : float) : Binary64.tierPrice d = Binary64.base d.
Proof.
  unfold Binary64.tierPrice, Binary64.base.
  destruct (d <? 0.5)%float eqn:E1; [reflexivity | ].
  destruct (d <? 1.0)%float eqn:E2.
  - rewrite (not_below_is_above d 0.5 1.0 eq_refl E1 E2). reflexivity.
  - rewrite andb_false_r.
    destruct (d <? 2.0)%float eqn:E3.
    + rewrite (not_below_is_above d 1.0 2.0 eq_refl E2 E3). reflexivity.
    + rewrite andb_false_r. reflexivity.
Qed.

(** C1.  For every distance (every double), weight field and timing, the
    price computed in binary64 is round(base(d) * m_w * m_t), with the
    tiers, the weight band [2, 5] and the asap multiplier of the
    specification, the products made from left to right, each rounded to a
    double, and one [Math.round] at the end.  That the weight multiplier
    comes first and that there is one rounding shows in the result: at
    12.5 km, in the band and asap, the price is 103 and the timing
    multiplier first would give 104; at 2.375 km it is 48 and a rounding
    after each multiplier would give 47.  At 6.25 km, asap, the price is
    57, where the product of the real numbers would round to 58. *)
Theorem C1_price_formula (d : float) (weight : string) (t : Timing) :
  Binary64.priceFor d weight t = Binary64.price d (JS.parseFloat weight) t /\
  (Binary64.priceFor 12.5 "3" asap = 103%float /\
   Binary64.priceTimingFirst 12.5 (JS.parseFloat "3") asap = 104%float) /\
  (Binary64.priceFor 2.375 "3" asap = 48%float /\
   Binary64.priceRoundedTwice 2.375 (JS.parseFloat "3") asap = 47%float) /\
  Binary64.priceFor 6.25 "1" asap = 57%float.
Proof.
  split; [ | repeat split; vm_compute; reflexivity].
  unfold Binary64.priceFor, Binary64.price.
  rewrite weightInBand_or_default, tierPrice_base.
  f_equal. unfold Binary64.m_w, Binary64.m_t.
  destruct (JS.parseFloat weight) as [ | n | q];
    try destruct (Qle_bool 2 q && Qle_bool q 5);
    destruct t; cbn [Timing_eqb]; rewrite ?mul_one; reflexivity.
Qed.

End PriceFormula.

(** ** The tiers *)

(** C4. At the tier boundaries: 0.5 km is in the 25 tier (not 20), 1.0 km
    in the 30 tier (not 25), and 2.0 km in the formula tier, 25 + 4*2 = 33
    (not the flat 30). *)
Theorem C4_tier_boundaries :
  (tierPrice 0.5 = 25 /\ tierPrice 0.5 <> 20) /\
  (tierPrice 1.0 = 30 /\ tierPrice 1.0 <> 25) /\
  (tierPrice 2.0 = 25 + 4 * 2 /\ tierPrice 2.0 = 33 /\ tierPrice 2.0 <> 30).
Proof.
  unfold tierPrice.
  repeat match goal with |- context [Rlt_dec ?a ?b] => destruct (Rlt_dec a b) end;
    try (exfalso; lra);
    repeat split; lra.
Qed.

(** ** Facts about the distance *)

Lemma haversine_a_sym (lat1 lng1 lat2 lng2 : R) :
  haversine_a lat2 lng2 lat1 lng1 = haversine_a lat1 lng1 lat2 lng2.
Proof.
  unfold haversine_a.
  replace (((lat1 - lat2) * PI) / 180 / 2)
    with (- (((lat2 - lat1) * PI) / 180 / 2)) by field.
  replace (((lng1 - lng2) * PI) / 180 / 2)
    with (- (((lng2 - lng1) * PI) / 180 / 2)) by field.
  rewrite !sin_neg. ring.
Qed.

Lemma distanceBetween_sym (lat1 lng1 lat2 lng2 : R) :
  distanceBetween lat2 lng2 lat1 lng1 = distanceBetween lat1 lng1 lat2 lng2.
Proof.
  unfold distanceBetween. rewrite haversine_a_sym. reflexivity.
Qed.

Lemma priceFor_ge_20 (d : R) (w : string) (t : Timing) :
  (20 <= priceFor d w t)%Z.
Proof.
  unfold priceFor.
  pose proof (tierPrice_ge_20 d) as Hb.
  set (b := tierPrice d) in *.
  rewrite <- (Math_round_IZR 20).
  apply Math_round_le.
  destruct (weightInBand _); destruct (Timing_eqb t asap); lra.
Qed.

(** ** Symmetry of the distance *)

(** C10. Swapping pickup and drop-off leaves the distance unchanged, and
    with it the price for the same weight and timing. *)
Theorem C10_distance_symmetric (s : State) :
  calculateDistance (swapEndpoints s) = calculateDistance s /\
  calculatePrice (swapEndpoints s) = calculatePrice s.
Proof.
  assert (Hd : calculateDistance (swapEndpoints s) = calculateDistance s).
  { unfold calculateDistance. simpl. apply distanceBetween_sym. }
  split; [exact Hd | ].
  unfold calculatePrice. rewrite Hd. reflexivity.
Qed.

(** ** The default weight *)

Lemma not_positive_not_in_band (p : JS.Number) :
  JS.gtb p (JS.Finite 0) = false ->
  weightInBand (JS.or_default p (JS.Finite 0.5)) = false.
Proof.
  intros Hp. rewrite weightInBand_or_default.
  destruct p as [ | n | q]; try reflexivity.
  unfold JS.gtb, JS.ltb in Hp.
  apply negb_false_iff in Hp. apply Qle_bool_iff in Hp.
  destruct (Qle_bool 2 q) eqn:H2; [ | reflexivity].
  apply Qle_bool_iff in H2.
  exfalso. assert (Hc : (2 <= 0)%Q) by (eapply Qle_trans; eassumption).
  revert Hc. unfold Qle. simpl. lia.
Qed.

Lemma parseFloat_empty : JS.parseFloat "" = JS.NaN.
Proof. reflexivity. Qed.

Lemma half_kg_not_in_band :
  weightInBand (JS.or_default (JS.parseFloat "0.5") (JS.Finite 0.5)) = false.
Proof. vm_compute. reflexivity. Qed.

(** C9.  For a weight field that is empty or does not parse to a positive
    number, the weight multiplier is not applied and the price is that of a
    0.5 kg parcel at the same distance and timing.  The weight used is 0.5
    itself when the field is empty, not a number, or zero; a weight below
    zero, which step 2 never lets through, is priced like 0.5 kg as well. *)
Theorem C9_default_weight (d : R) (weight : string) (t : Timing) :
  weight = "" \/ JS.gtb (JS.parseFloat weight) (JS.Finite 0) = false ->
  (JS.ToBoolean (JS.parseFloat weight) = false ->
   JS.or_default (JS.parseFloat weight) (JS.Finite 0.5) = JS.Finite 0.5) /\
  weightInBand (JS.or_default (JS.parseFloat weight) (JS.Finite 0.5)) = false /\
  priceFor d weight t = priceFor d "0.5" t.
Proof.
  intros H.
  assert (Hp : JS.gtb (JS.parseFloat weight) (JS.Finite 0) = false).
  { destruct H as [-> | H]; [reflexivity | exact H]. }
  assert (Hband := not_positive_not_in_band _ Hp).
  split; [ | split].
  - intros Hfalsy. unfold JS.or_default. rewrite Hfalsy. reflexivity.
  - exact Hband.
  - unfold priceFor. rewrite Hband, half_kg_not_in_band. reflexivity.
Qed.

Lemma C9_default_weight_witness :
  weightInBand (JS.or_default (JS.parseFloat "abc") (JS.Finite 0.5)) = false /\
  priceFor 3 "abc" asap = priceFor 3 "0.5" asap.
Proof.
  apply (C9_default_weight 3 "abc" asap).
  right. vm_compute. reflexivity.
Defined.

(** ** The validation of step 2 *)

(** C3.  A weight field that holds no number passes the validation: for the
    field ".", [parseFloat] gives [NaN], both comparisons with it are false,
    the wizard goes on to step 3, and the request that is posted at the end
    carries [NaN] as the weight. *)
Theorem C3_unparsable_weight_accepted :
  JS.parseFloat "." = JS.NaN /\
  handleNextStep (parcelForm "." "500" ["p"]) =
    (setStep 3 (parcelForm "." "500" ["p"]), []) /\
  exists (s : State) (body : DeliveryData),
    run initialState (postParcel ".") = (s, [ApiPost "/deliveries" body]) /\
    weight_kg body = JS.NaN.
Proof.
  split; [reflexivity | ].
  split; [reflexivity | ].
  lazy -[calculatePrice Q2R].
  eexists. eexists. split; reflexivity.
Qed.

(** C7.  A weight below 0.1 kg passes the validation: for the field "0.05"
    the wizard goes on to step 3, and the request that is posted at the end
    carries that weight. *)
Theorem C7_light_parcel_accepted :
  JS.ltb (JS.parseFloat "0.05") (JS.Finite 0.1) = true /\
  handleNextStep (parcelForm "0.05" "500" ["p"]) =
    (setStep 3 (parcelForm "0.05" "500" ["p"]), []) /\
  exists (s : State) (body : DeliveryData),
    run initialState (postParcel "0.05") = (s, [ApiPost "/deliveries" body]) /\
    JS.ltb (weight_kg body) (JS.Finite 0.1) = true.
Proof.
  split; [vm_compute; reflexivity | ].
  split; [reflexivity | ].
  lazy -[calculatePrice Q2R].
  eexists. eexists. split; reflexivity.
Qed.

(** ** Single use of a code *)

Section SingleUse.

Context {Code Digest : Type}.
Variable hash : Code -> Digest.
Variable Digest_eqb : Digest -> Digest -> bool.

(** A verification that succeeds has passed every test of its order. *)
Lemma verify_success (order : list OTP.Check) (now : Z) (stored : Digest)
    (code : Code) (attempts : nat) (expires : Z) (used : bool) :
  fst (OTP.verify hash Digest_eqb order now stored code attempts expires used)
  = OTP.Success ->
  forall c : OTP.Check, In c order ->
    OTP.fails hash Digest_eqb c now stored code expires used = false.
Proof.
  induction order as [ | c0 rest IH]; intros H c Hin; [destruct Hin | ].
  simpl in H.
  destruct (OTP.fails hash Digest_eqb c0 now stored code expires used) eqn:F.
  - destruct c0; discriminate H.
  - destruct Hin as [<- | Hin]; [exact F | apply IH; assumption].
Qed.

(** A verification in which a test fails does not succeed. *)
Lemma verify_failure (order : list OTP.Check) (now : Z) (stored : Digest)
    (code : Code) (attempts : nat) (expires : Z) (used : bool)
    (c : OTP.Check) :
  In c order ->
  OTP.fails hash Digest_eqb c now stored code expires used = true ->
  fst (OTP.verify hash Digest_eqb order now stored code attempts expires used)
  <> OTP.Success.
Proof.
  intros Hin F H.
  rewrite (verify_success order now stored code attempts expires used H c Hin)
    in F.
  discriminate F.
Qed.

(** When the used flag is set and no other test fails, the failure is
    [AlreadyUsed], wherever the test of the flag stands in the order. *)
Lemma verify_used_only (order : list OTP.Check) (now : Z) (stored : Digest)
    (code : Code) (attempts : nat) (expires : Z) :
  In OTP.CheckUsed order ->
  OTP.fails hash Digest_eqb OTP.CheckExpiry now stored code expires true
  = false ->
  OTP.fails hash Digest_eqb OTP.CheckHash now stored code expires true
  = false ->
  fst (OTP.verify hash Digest_eqb order now stored code attempts expires true)
  = OTP.AlreadyUsed.
Proof.
  intros Hin He Hh.
  induction order as [ | c0 rest IH]; [destruct Hin | ].
  destruct c0; simpl in *.
  - rewrite He. apply IH. destruct Hin as [Hc | Hin]; [discriminate Hc | exact Hin].
  - reflexivity.
  - rewrite Hh. apply IH. destruct Hin as [Hc | Hin]; [discriminate Hc | exact Hin].
Qed.

(** After expiry, with the used flag set, the failure is one of the two
    that apply. *)
Lemma verify_used_and_expired (order : list OTP.Check) (now : Z)
    (stored : Digest) (code : Code) (attempts : nat) (expires : Z) :
  In OTP.CheckUsed order ->
  OTP.fails hash Digest_eqb OTP.CheckHash now stored code expires true
  = false ->
  fst (OTP.verify hash Digest_eqb order now stored code attempts expires true)
  = OTP.AlreadyUsed \/
  fst (OTP.verify hash Digest_eqb order now stored code attempts expires true)
  = OTP.Expired.
Proof.
  intros Hin Hh.
  induction order as [ | c0 rest IH]; [destruct Hin | ].
  destruct c0; simpl in *.
  - destruct (expires <? now)%Z; [right; reflexivity | ].
    apply IH. destruct Hin as [Hc | Hin]; [discriminate Hc | exact Hin].
  - left. reflexivity.
  - rewrite Hh. apply IH. destruct Hin as [Hc | Hin]; [discriminate Hc | exact Hin].
Qed.

Lemma submit_fst (order : list OTP.Check) (now : Z) (o : OTP.Otp Digest)
    (code : Code) :
  fst (OTP.submit hash Digest_eqb order now o code)
  = fst (OTP.verify hash Digest_eqb order now (OTP.stored_hash o) code
           (OTP.attempt_count o) (OTP.expiry o) (OTP.used_flag o)).
Proof.
  unfold OTP.submit.
  destruct (OTP.verify hash Digest_eqb order now (OTP.stored_hash o) code
              (OTP.attempt_count o) (OTP.expiry o) (OTP.used_flag o));
    reflexivity.
Qed.

Lemma submit_success_record (order : list OTP.Check) (now : Z)
    (o : OTP.Otp Digest) (code : Code) :
  fst (OTP.submit hash Digest_eqb order now o code) = OTP.Success ->
  OTP.stored_hash (snd (OTP.submit hash Digest_eqb order now o code))
  = OTP.stored_hash o /\
  OTP.expiry (snd (OTP.submit hash Digest_eqb order now o code))
  = OTP.expiry o /\
  OTP.used_flag (snd (OTP.submit hash Digest_eqb order now o code)) = true.
Proof.
  unfold OTP.submit.
  destruct (OTP.verify hash Digest_eqb order now (OTP.stored_hash o) code
              (OTP.attempt_count o) (OTP.expiry o) (OTP.used_flag o))
    as [outcome attempts].
  simpl. intros ->. repeat split.
Qed.

End SingleUse.



(** ** The worked example *)

(** Five digits of [PI]. *)
Lemma PI_decimal_bounds : 3.14159 < PI < 3.1416.
Proof.
  pose proof (PI_2_3_7_ineq 2) as [Hlo Hhi].
  unfold sum_f_R0, tg_alt, PI_2_3_7_tg, Ratan_seq in Hlo, Hhi.
  simpl in Hlo, Hhi.
  split; lra.
Qed.

(** [sin] on a small interval, from the first two terms of its series. *)
Lemma sin_enclosure (l h x : R) :
  0 <= l -> l <= x -> x <= h -> h <= 3 ->
  l - h ^ 3 / 6 <= sin x <= h.
Proof.
  intros Hl Hlx Hxh Hh.
  assert (Hx0 : 0 <= x) by lra.
  assert (Hpi : x <= PI) by (pose proof PI_decimal_bounds; lra).
  destruct (sin_bound x 0 Hx0 Hpi) as [Hlow _].
  assert (E : sin_approx x (2 * 0 + 1) = x - x ^ 3 / 6).
  { unfold sin_approx, sin_term. simpl. field. }
  rewrite E in Hlow.
  assert (Hc : x ^ 3 <= h ^ 3) by (apply pow_incr; lra).
  split; [lra | ].
  destruct (Req_dec x 0) as [-> | Hn].
  - rewrite sin_0. lra.
  - pose proof (sin_lt_x x). lra.
Qed.

(** [cos] on an interval of the first quadrant, from the first three terms
    of its series. *)
Lemma cos_enclosure (l h x : R) :
  0 <= l -> l <= x -> x <= h -> h <= PI / 2 ->
  1 - h ^ 2 / 2 <= cos x <= 1 - l ^ 2 / 2 + h ^ 4 / 24.
Proof.
  intros Hl Hlx Hxh Hh.
  pose proof PI_decimal_bounds as HPI.
  assert (H1 : - PI / 2 <= x) by lra.
  assert (H2 : x <= PI / 2) by lra.
  destruct (cos_bound x 0 H1 H2) as [Hlow Hup].
  assert (E1 : cos_approx x (2 * 0 + 1) = 1 - x ^ 2 / 2).
  { unfold cos_approx, cos_term. simpl. field. }
  assert (E2 : cos_approx x (2 * (0 + 1)) = 1 - x ^ 2 / 2 + x ^ 4 / 24).
  { unfold cos_approx, cos_term. simpl. field. }
  rewrite E1 in Hlow. rewrite E2 in Hup.
  assert (Ha : x ^ 2 <= h ^ 2) by (apply pow_incr; lra).
  assert (Hb : l ^ 2 <= x ^ 2) by (apply pow_incr; lra).
  assert (Hc : x ^ 4 <= h ^ 4) by (apply pow_incr; lra).
  split; lra.
Qed.

Lemma tan_ge_x (y : R) : 0 <= y -> y < PI / 2 -> y <= tan y.
Proof.
  intros H0 H1.
  pose proof PI_decimal_bounds as HPI.
  assert (Hc : 0 < cos y) by (apply cos_gt_0; lra).
  destruct (sin_enclosure y y y H0 (Rle_refl _) (Rle_refl _)) as [Hs _]; [lra | ].
  destruct (cos_enclosure y y y H0 (Rle_refl _) (Rle_refl _)) as [_ Hcu]; [lra | ].
  unfold tan. apply (Rmult_le_reg_r (cos y)); [exact Hc | ].
  unfold Rdiv. rewrite Rmult_assoc, Rinv_l, Rmult_1_r by lra.
  apply Rle_trans with (y * (1 - y ^ 2 / 2 + y ^ 4 / 24)).
  - apply Rmult_le_compat_l; lra.
  - apply Rle_trans with (y - y ^ 3 / 6); [ | exact Hs].
    assert (Hy2 : y ^ 2 <= 4).
    { replace 4 with (2 ^ 2) by (simpl; lra). apply pow_incr. lra. }
    assert (Hy3 : 0 <= y ^ 3) by (apply pow_le; lra).
    replace (y * (1 - y ^ 2 / 2 + y ^ 4 / 24))
      with (y - y ^ 3 / 6 - y ^ 3 * (/ 3 - y ^ 2 / 24)) by field.
    assert (0 <= y ^ 3 * (/ 3 - y ^ 2 / 24)) by (apply Rmult_le_pos; lra).
    lra.
Qed.

(** [atan] between 0 and 1. *)
Lemma atan_enclosure (t : R) :
  0 <= t -> t <= 1 -> t - t ^ 3 / 2 <= atan t <= t.
Proof.
  intros H0 H1.
  pose proof PI_decimal_bounds as HPI.
  pose proof (atan_bound t) as [_ Hub].
  assert (Hy0 : 0 <= atan t).
  { rewrite <- atan_0. destruct (Req_dec t 0) as [-> | Hn]; [lra | ].
    left. apply atan_increasing. lra. }
  set (y := atan t) in *.
  assert (Ht : tan y = t) by (unfold y; apply tan_atan).
  assert (Hyt : y <= t).
  { pose proof (tan_ge_x y Hy0) as Hty. rewrite Ht in Hty. apply Hty. lra. }
  split; [ | exact Hyt].
  assert (Hc : 0 < cos y) by (apply cos_gt_0; lra).
  destruct (sin_enclosure y y y Hy0 (Rle_refl _) (Rle_refl _)) as [_ Hs]; [lra | ].
  destruct (cos_enclosure y y y Hy0 (Rle_refl _) (Rle_refl _)) as [Hcl _]; [lra | ].
  assert (Hsin : sin y = t * cos y).
  { rewrite <- Ht. unfold tan. field. lra. }
  assert (Hy2 : y ^ 2 <= t ^ 2) by (apply pow_incr; lra).
  assert (Ht2 : t ^ 2 <= 1).
  { replace 1 with (1 ^ 2) by (simpl; lra). apply pow_incr. lra. }
  assert (Hk : t * (1 - t ^ 2 / 2) <= t * cos y).
  { apply Rmult_le_compat_l; lra. }
  replace (t - t ^ 3 / 2) with (t * (1 - t ^ 2 / 2)) by field.
  lra.
Qed.

Lemma sqrt_between (l h a : R) :
  0 <= l -> l * l <= a -> a <= h * h -> 0 <= h -> l <= sqrt a <= h.
Proof.
  intros Hl Hla Hah Hh. split.
  - rewrite <- (sqrt_square l Hl). apply sqrt_le_1_alt. exact Hla.
  - rewrite <- (sqrt_square h Hh). apply sqrt_le_1_alt. exact Hah.
Qed.

(** The product of two enclosures of non-negative numbers. *)
Lemma Rmult_enclosure (xl xh yl yh x y : R) :
  0 <= xl -> 0 <= yl -> xl <= x <= xh -> yl <= y <= yh ->
  xl * yl <= x * y <= xh * yh.
Proof.
  intros Hx Hy [Hxl Hxh] [Hyl Hyh].
  split; apply Rmult_le_compat; lra.
Qed.

(** The [a] of the worked example. *)
Lemma workedExample_a :
  0.000004686046576 <= haversine_a 15.4909 73.8278 15.2832 73.9685
                    <= 0.000004686711554.
Proof.
  pose proof PI_decimal_bounds as HPI.
  unfold haversine_a.
  set (x1 := 0.2077 * PI / 360).
  set (x2 := 0.1407 * PI / 360).
  replace ((15.2832 - 15.4909) * PI / 180 / 2) with (- x1) by (unfold x1; lra).
  replace ((73.9685 - 73.8278) * PI / 180 / 2) with x2 by (unfold x2; lra).
  set (p1 := 15.4909 * PI / 180).
  set (p2 := 15.2832 * PI / 180).
  rewrite sin_neg.
  replace (- sin x1 * - sin x1) with (sin x1 * sin x1) by ring.
  assert (Hx1 : 0.0018125228972 <= x1 <= 0.0018125286667) by (unfold x1; lra).
  assert (Hx2 : 0.0012278380916 <= x2 <= 0.001227842) by (unfold x2; lra).
  assert (Hp1 : 0.2703669807277 <= p1 <= 0.2703678413334) by (unfold p1; lra).
  assert (Hp2 : 0.2667419349333 <= p2 <= 0.266742784) by (unfold p2; lra).
  assert (Hs1 : 0.0018125219047 <= sin x1 <= 0.0018125286667).
  { destruct (sin_enclosure 0.0018125228972 0.0018125286667 x1) as [L H];
      try lra. }
  assert (Hs2 : 0.001227837783 <= sin x2 <= 0.001227842).
  { destruct (sin_enclosure 0.0012278380916 0.001227842 x2) as [L H];
      try lra. }
  assert (Hc1 : 0.9634506151863 <= cos p1 <= 0.9636734907879).
  { destruct (cos_enclosure 0.2703669807277 0.2703678413334 p1) as [L H];
      try lra. }
  assert (Hc2 : 0.9644241435919 <= cos p2 <= 0.9646353103339).
  { destruct (cos_enclosure 0.2667419349333 0.266742784 p2) as [L H];
      try lra. }
  set (s1 := sin x1) in *. set (s2 := sin x2) in *.
  set (c1 := cos p1) in *. set (c2 := cos p2) in *.
  assert (H11 : 0.000003285235655 <= s1 * s1 <= 0.000003285260168).
  { pose proof (Rmult_enclosure 0.0018125219047 0.0018125286667 0.0018125219047 0.0018125286667 s1 s1).
    lra. }
  assert (H12 : 0.929175034444136 <= c1 * c2 <= 0.929593476846739).
  { pose proof (Rmult_enclosure 0.9634506151863 0.9636734907879 0.9644241435919 0.9646353103339 c1 c2).
    lra. }
  assert (H13 : 0.00114087621431 <= c1 * c2 * s2 <= 0.001141393913799).
  { pose proof (Rmult_enclosure 0.929175034444136 0.929593476846739 0.001227837783 0.001227842 (c1 * c2) s2).
    lra. }
  assert (H14 : 0.000001400810921 <= c1 * c2 * s2 * s2 <= 0.000001401451386).
  { pose proof (Rmult_enclosure 0.00114087621431 0.001141393913799 0.001227837783 0.001227842 (c1 * c2 * s2) s2).
    lra. }
  lra.
Qed.

(** The [atan2] of [calculateDistance], from an enclosure of [a] and of its
    square root. *)
Lemma atan2_enclosure (a al ah ql qh rl : R) :
  0 < al -> al <= a <= ah -> ah < 1 ->
  0 <= ql -> ql * ql <= al -> ah <= qh * qh -> 0 <= qh ->
  0 < rl -> rl * rl <= 1 - ah -> qh <= rl ->
  ql - (qh / rl) ^ 3 / 2 <= JS.Math_atan2 (sqrt a) (sqrt (1 - a)) <= qh / rl.
Proof.
  intros Hal [Hla Hah] Hah1 Hql Hqla Hqha Hqh Hrl Hrla Hqr.
  destruct (sqrt_between ql qh a) as [Hq1 Hq2]; try lra.
  destruct (sqrt_between rl 1 (1 - a)) as [Hr1 Hr2]; try lra.
  unfold JS.Math_atan2.
  destruct (Rlt_dec 0 (sqrt (1 - a))) as [_ | F]; [ | exfalso; lra].
  set (q := sqrt a) in *. set (r := sqrt (1 - a)) in *.
  assert (Hinv : / rl > 0) by (apply Rinv_0_lt_compat; lra).
  assert (Hlo : q <= q / r).
  { apply (Rmult_le_reg_r r); [lra | ].
    unfold Rdiv. rewrite Rmult_assoc, Rinv_l, Rmult_1_r by lra. nra. }
  assert (Hhi : q / r <= qh / rl).
  { apply (Rmult_le_reg_r r); [lra | ].
    unfold Rdiv at 1. rewrite Rmult_assoc, Rinv_l, Rmult_1_r by lra.
    apply Rle_trans with (qh / rl * rl).
    - unfold Rdiv. rewrite Rmult_assoc, Rinv_l, Rmult_1_r by lra. lra.
    - apply Rmult_le_compat_l; [ | lra].
      apply Rmult_le_pos; lra. }
  assert (H1 : qh / rl <= 1).
  { apply (Rmult_le_reg_r rl); [lra | ].
    unfold Rdiv. rewrite Rmult_assoc, Rinv_l, Rmult_1_r by lra. lra. }
  destruct (atan_enclosure (q / r)) as [Ha1 Ha2]; try lra.
  assert (Hcube : (q / r) ^ 3 <= (qh / rl) ^ 3) by (apply pow_incr; lra).
  lra.
Qed.

(** Panaji to Margao is a little under 27.6 km. *)
Lemma workedExample_distance :
  27.58 < calculateDistance workedExample < 27.59.
Proof.
  change (calculateDistance workedExample)
    with (distanceBetween 15.4909 73.8278 15.2832 73.9685).
  unfold distanceBetween.
  pose proof workedExample_a as Ha.
  destruct (atan2_enclosure (haversine_a 15.4909 73.8278 15.2832 73.9685)
              0.000004686046576 0.000004686711554
              0.002164727829 0.002164881418 0.999997656) as [Hl Hh];
    try lra.
Qed.

(** C2, as stated, fails: for the worked example the program computes
    neither a distance near 33 km nor the price 157. *)
Lemma C2_counterexample :
  ~ (32 <= calculateDistance workedExample) /\
  calculatePrice workedExample <> 157%Z.
Proof.
  pose proof workedExample_distance as [Hlo Hhi].
  split; [lra | ].
  unfold calculatePrice, priceFor.
  change (weight workedExample) with "0.5".
  rewrite half_kg_not_in_band.
  change (Timing_eqb (timing workedExample) asap) with false.
  set (d := calculateDistance workedExample) in *.
  intros H.
  pose proof (Math_round_bounds (tierPrice d)) as [Hr _].
  rewrite H in Hr.
  unfold tierPrice in Hr.
  repeat match type of Hr with
         | context [Rlt_dec ?a ?b] => destruct (Rlt_dec a b)
         end; lra.
Qed.

(** C2, amended.  For pickup (15.4909, 73.8278), drop-off (15.2832,
    73.9685), weight 0.5 kg and timing [within_2h], the distance computed
    is between 27.58 and 27.59 km and the price is round(25 + 4 * distance)
    = 135, with neither the weight multiplier nor the timing multiplier
    applied. *)
Theorem C2_worked_example :
  27.58 < calculateDistance workedExample < 27.59 /\
  weightInBand (JS.or_default (JS.parseFloat (weight workedExample))
                  (JS.Finite 0.5)) = false /\
  Timing_eqb (timing workedExample) asap = false /\
  calculatePrice workedExample
    = JS.Math_round (25 + 4 * calculateDistance workedExample) /\
  calculatePrice workedExample = 135%Z.
Proof.
  pose proof workedExample_distance as [Hlo Hhi].
  assert (Hp : calculatePrice workedExample
               = JS.Math_round (25 + 4 * calculateDistance workedExample)).
  { unfold calculatePrice, priceFor.
    change (weight workedExample) with "0.5".
    rewrite half_kg_not_in_band.
    change (Timing_eqb (timing workedExample) asap) with false.
    set (d := calculateDistance workedExample) in *.
    unfold tierPrice.
    repeat match goal with
           | |- context [Rlt_dec ?a ?b] => destruct (Rlt_dec a b)
           end; try (exfalso; lra).
    reflexivity. }
  split; [split; assumption | ].
  split; [exact half_kg_not_in_band | ].
  split; [reflexivity | ].
  split; [exact Hp | ].
  rewrite Hp. apply Math_round_eq. split; lra.
Qed.

(** ** Further facts about the distance and the price *)

Lemma distanceBetween_same_point (lat lng : R) :
  distanceBetween lat lng lat lng = 0.
Proof.
  unfold distanceBetween, haversine_a.
  replace ((lat - lat) * PI / 180 / 2) with 0 by (unfold Rdiv; ring).
  replace ((lng - lng) * PI / 180 / 2) with 0 by (unfold Rdiv; ring).
  rewrite sin_0.
  replace (0 * 0 + cos (lat * PI / 180) * cos (lat * PI / 180) * 0 * 0)
    with 0 by ring.
  replace (1 - 0) with 1 by ring.
  rewrite sqrt_0, sqrt_1. unfold JS.Math_atan2.
  destruct (Rlt_dec 0 1) as [_ | F]; [ | exfalso; lra].
  unfold Rdiv. rewrite Rmult_0_l, atan_0. ring.
Qed.

(** When pickup and drop-off are the same point the distance is 0, and the
    price is that of the lowest tier: the flat 20 with the multipliers. *)
Theorem same_point_lowest_tier (s : State) :
  pickupLat s = dropoffLat s -> pickupLng s = dropoffLng s ->
  calculateDistance s = 0 /\
  tierPrice (calculateDistance s) = 20 /\
  (20 <= calculatePrice s <= 28)%Z.
Proof.
  intros Hlat Hlng.
  assert (Hd : calculateDistance s = 0).
  { unfold calculateDistance. rewrite Hlat, Hlng.
    apply distanceBetween_same_point. }
  assert (Ht : tierPrice 0 = 20).
  { unfold tierPrice. destruct (Rlt_dec 0 0.5); [reflexivity | exfalso; lra]. }
  split; [exact Hd | ]. split; [rewrite Hd; exact Ht | ].
  split; [unfold calculatePrice; apply priceFor_ge_20 | ].
  unfold calculatePrice, priceFor. rewrite Hd, Ht.
  rewrite <- (Math_round_IZR 28). apply Math_round_le.
  destruct (weightInBand _); destruct (Timing_eqb _ _); lra.
Qed.

Lemma same_point_lowest_tier_witness :
  calculateDistance (mkState false 1 "" 15 73 "" 15 73
                       documents "3" "" [] asap 0) = 0.
Proof.
  apply (same_point_lowest_tier
           (mkState false 1 "" 15 73 "" 15 73 documents "3" "" [] asap 0));
    reflexivity.
Defined.

Lemma tierPrice_monotone (d1 d2 : R) :
  d1 <= d2 -> tierPrice d1 <= tierPrice d2.
Proof.
  intros H. unfold tierPrice.
  repeat match goal with
         | |- context [Rlt_dec ?a ?b] => destruct (Rlt_dec a b)
         end; lra.
Qed.

(** A longer distance never costs less, for the same weight and timing. *)
Theorem price_monotone_in_distance (d1 d2 : R) (w : string) (t : Timing) :
  d1 <= d2 -> (priceFor d1 w t <= priceFor d2 w t)%Z.
Proof.
  intros H. unfold priceFor.
  pose proof (tierPrice_monotone d1 d2 H) as Hm.
  apply Math_round_le.
  destruct (weightInBand _); destruct (Timing_eqb t asap); lra.
Qed.

Lemma price_monotone_in_distance_witness :
  (priceFor 0.7 "3" asap <= priceFor 12 "3" asap)%Z.
Proof.
  apply (price_monotone_in_distance 0.7 12 "3" asap). lra.
Defined.

(** The two surcharges never lower the price: it is at least the rounded
    price of the tier, whatever the weight field and the timing. *)
Theorem surcharges_never_lower_the_price (d : R) (w : string) (t : Timing) :
  (JS.Math_round (tierPrice d) <= priceFor d w t)%Z.
Proof.
  unfold priceFor.
  pose proof (tierPrice_ge_20 d) as Hb.
  apply Math_round_le.
  destruct (weightInBand _); destruct (Timing_eqb t asap); lra.
Qed.

(** No timing is dearer than [asap], at the same distance and weight. *)
Theorem asap_is_dearest (d : R) (w : string) (t : Timing) :
  (priceFor d w t <= priceFor d w asap)%Z.
Proof.
  unfold priceFor.
  pose proof (tierPrice_ge_20 d) as Hb.
  apply Math_round_le.
  destruct (weightInBand _); destruct t; simpl; lra.
Qed.

(** The three timings other than [asap] cost the same. *)
Theorem later_timings_cost_the_same (d : R) (w : string) (t1 t2 : Timing) :
  t1 <> asap -> t2 <> asap -> priceFor d w t1 = priceFor d w t2.
Proof.
  intros H1 H2. unfold priceFor.
  destruct t1; try contradiction; destruct t2; try contradiction; reflexivity.
Qed.

Lemma later_timings_cost_the_same_witness :
  priceFor 10 "1" within_2h = priceFor 10 "1" scheduled.
Proof.
  apply (later_timings_cost_the_same 10 "1" within_2h scheduled);
    discriminate.
Defined.

(** A weight outside the band from 2 to 5 kg gets the lowest price of its
    distance and timing: no other weight field is cheaper. *)
Theorem light_parcel_is_cheapest (d : R) (w w' : string) (t : Timing) :
  weightInBand (JS.or_default (JS.parseFloat w) (JS.Finite 0.5)) = false ->
  (priceFor d w t <= priceFor d w' t)%Z.
Proof.
  intros Hw. unfold priceFor. rewrite Hw. clear Hw.
  pose proof (tierPrice_ge_20 d) as Hb.
  apply Math_round_le.
  destruct (weightInBand _); destruct (Timing_eqb t asap); lra.
Qed.

Lemma light_parcel_is_cheapest_witness :
  (priceFor 10 "1.9" asap <= priceFor 10 "2" asap)%Z.
Proof.
  apply (light_parcel_is_cheapest 10 "1.9" "2" asap).
  vm_compute. reflexivity.
Defined.

(** ** The wizard *)

Lemma str_not_false (s : string) : JS.str_not s = false <-> s <> "".
Proof.
  destruct s; simpl; split; intros H; congruence.
Qed.

Lemma removeAt_length_le {A : Type} (index : nat) (l : list A) :
  (List.length (removeAt index l) <= List.length l)%nat.
Proof.
  revert index. induction l as [ | h t IH]; intros [ | i]; simpl; try lia.
  specialize (IH i). lia.
Qed.

Lemma calculatePrice_frame (s s' : State) :
  pickupLat s' = pickupLat s -> pickupLng s' = pickupLng s ->
  dropoffLat s' = dropoffLat s -> dropoffLng s' = dropoffLng s ->
  weight s' = weight s -> timing s' = timing s ->
  calculatePrice s' = calculatePrice s.
Proof.
  intros H1 H2 H3 H4 H5 H6.
  unfold calculatePrice, calculateDistance. rewrite H1, H2, H3, H4, H5, H6.
  reflexivity.
Qed.

Lemma initialState_invariant : wizardInvariant initialState.
Proof.
  unfold wizardInvariant, defaultCoordinates, initialState. state_simpl.
  split; [lia | ]. split; [simpl; lia | ].
  split; [repeat split | ].
  split; [intros H; exfalso; lia | ].
  split; intros H; exfalso; lia.
Qed.

Lemma handleNextStep_invariant (s : State) :
  wizardInvariant s -> wizardInvariant (fst (handleNextStep s)).
Proof.
  intros Hinv. pose proof Hinv as (Hstep & Hph & Hco & Haddr & Hparcel & Hprice).
  unfold handleNextStep.
  destruct (Nat.eqb (step s) 1) eqn:E1.
  { apply Nat.eqb_eq in E1.
    destruct (JS.str_not (JS.trim (pickupAddress s))
              || JS.str_not (JS.trim (dropoffAddress s))) eqn:G.
    - state_simpl. exact Hinv.
    - apply orb_false_iff in G. destruct G as [G1 G2].
      apply str_not_false in G1. apply str_not_false in G2.
      unfold wizardInvariant, defaultCoordinates, addressesEntered,
             parcelAccepted in *.
      destruct s. state_simpl.
      split; [lia | ]. split; [assumption | ]. split; [assumption | ].
      split; [intros _; split; assumption | ].
      split; intros H; exfalso; lia. }
  destruct (Nat.eqb (step s) 2) eqn:E2.
  { apply Nat.eqb_eq in E2.
    destruct (JS.str_not (weight s)
              || JS.leb (JS.parseFloat (weight s)) (JS.Finite 0)
              || JS.gtb (JS.parseFloat (weight s)) (JS.Finite 5)) eqn:G1.
    { state_simpl. exact Hinv. }
    destruct (JS.str_not (declaredValue s)
              || JS.leb (JS.parseFloat (declaredValue s)) (JS.Finite 0)) eqn:G2.
    { state_simpl. exact Hinv. }
    destruct (Nat.eqb (List.length (photos s)) 0) eqn:G3.
    { state_simpl. exact Hinv. }
    apply orb_false_iff in G1. destruct G1 as [G1 G1c].
    apply orb_false_iff in G1. destruct G1 as [G1a G1b].
    apply orb_false_iff in G2. destruct G2 as [G2a G2b].
    apply str_not_false in G1a. apply str_not_false in G2a.
    apply Nat.eqb_neq in G3.
    assert (Hne : photos s <> []).
    { intros E. rewrite E in G3. apply G3. reflexivity. }
    unfold wizardInvariant, defaultCoordinates, addressesEntered,
           parcelAccepted in *.
    destruct s. state_simpl.
    split; [lia | ]. split; [assumption | ]. split; [assumption | ].
    split; [intros _; apply Haddr; lia | ].
    split; [intros _; repeat split; assumption | ].
    intros H; exfalso; lia. }
  destruct (Nat.eqb (step s) 3) eqn:E3.
  { apply Nat.eqb_eq in E3.
    unfold wizardInvariant, defaultCoordinates, addressesEntered,
           parcelAccepted in *.
    cbn zeta.
    assert (Hp : calculatePrice (setStep 4 (setCalculatedPrice (calculatePrice s) s))
                 = calculatePrice s).
    { apply calculatePrice_frame; reflexivity. }
    revert Hp. generalize (calculatePrice s) at 1 3 4. intros p Hp.
    destruct s. state_simpl.
    split; [lia | ]. split; [assumption | ]. split; [assumption | ].
    split; [intros _; apply Haddr; lia | ].
    split; [intros _; apply Hparcel; lia | ].
    intros _. symmetry. exact Hp. }
  state_simpl. exact Hinv.
Qed.

(** An event that edits one field of the form on the step that shows it:
    the invariant speaks of that field on later steps only. *)
Ltac field_edit Hinv :=
  match goal with
  | |- context [Nat.eqb (step ?s) ?n] =>
      let E := fresh "E" in
      destruct (Nat.eqb (step s) n) eqn:E; [ | exact Hinv];
      apply Nat.eqb_eq in E;
      destruct Hinv as (Hstep & Hph & Hco & Haddr & Hparcel & Hprice);
      unfold wizardInvariant, defaultCoordinates, addressesEntered in *;
      destruct s; state_simpl;
      split; [lia | ]; split; [assumption | ]; split; [assumption | ];
      split; [first [assumption | intros H; exfalso; lia] | ];
      split; intros H; exfalso; lia
  end.

Lemma dispatch_invariant (s : State) (e : Event) :
  wizardInvariant s -> wizardInvariant (fst (dispatch s e)).
Proof.
  intros Hinv.
  destruct e as [text | text | c | text | text | picked | index | t | | | response];
    unfold dispatch.
  1-5: field_edit Hinv.
  - (* add a photo *)
    destruct (Nat.eqb (step s) 2 && Nat.ltb (List.length (photos s)) 3) eqn:E;
      [ | exact Hinv].
    apply andb_true_iff in E. destruct E as [E L].
    apply Nat.eqb_eq in E. apply Nat.ltb_lt in L.
    destruct picked as [base64 | ]; [ | exact Hinv].
    destruct Hinv as (Hstep & Hph & Hco & Haddr & Hparcel & Hprice).
    unfold wizardInvariant, defaultCoordinates, addressesEntered in *.
    destruct s. state_simpl.
    split; [lia | ].
    split; [rewrite length_app; simpl; lia | ].
    split; [assumption | ]. split; [assumption | ].
    split; intros H; exfalso; lia.
  - (* remove a photo *)
    destruct (Nat.eqb (step s) 2) eqn:E; [ | exact Hinv].
    apply Nat.eqb_eq in E.
    destruct Hinv as (Hstep & Hph & Hco & Haddr & Hparcel & Hprice).
    unfold wizardInvariant, defaultCoordinates, addressesEntered in *.
    destruct s. state_simpl.
    split; [lia | ].
    split; [pose proof (removeAt_length_le index photos0); lia | ].
    split; [assumption | ]. split; [assumption | ].
    split; intros H; exfalso; lia.
  - (* timing *)
    destruct (Nat.eqb (step s) 3) eqn:E; [ | exact Hinv].
    apply Nat.eqb_eq in E.
    destruct Hinv as (Hstep & Hph & Hco & Haddr & Hparcel & Hprice).
    unfold wizardInvariant, defaultCoordinates, addressesEntered,
           parcelAccepted in *.
    destruct s. state_simpl.
    split; [lia | ]. split; [assumption | ]. split; [assumption | ].
    split; [assumption | ]. split; [assumption | ].
    intros H; exfalso; lia.
  - (* back *)
    destruct (Nat.ltb 1 (step s)) eqn:E; [ | exact Hinv].
    apply Nat.ltb_lt in E.
    destruct Hinv as (Hstep & Hph & Hco & Haddr & Hparcel & Hprice).
    unfold wizardInvariant, defaultCoordinates, addressesEntered,
           parcelAccepted in *.
    destruct s. state_simpl.
    split; [lia | ]. split; [assumption | ]. split; [assumption | ].
    split; [intros H; apply Haddr; lia | ].
    split; [intros H; apply Hparcel; lia | ].
    intros H; exfalso; lia.
  - (* next *)
    destruct (loading s); [exact Hinv | ].
    destruct (Nat.eqb (step s) 4) eqn:E;
      [ | apply handleNextStep_invariant; exact Hinv].
    destruct Hinv as (Hstep & Hph & Hco & Haddr & Hparcel & Hprice).
    unfold wizardInvariant, defaultCoordinates, addressesEntered,
           parcelAccepted in *.
    state_simpl.
    rewrite (calculatePrice_frame s (setLoading true s)) by reflexivity.
    destruct s. state_simpl. repeat split; tauto.
  - (* the request has settled *)
    destruct (loading s); [ | exact Hinv].
    destruct Hinv as (Hstep & Hph & Hco & Haddr & Hparcel & Hprice).
    unfold wizardInvariant, defaultCoordinates, addressesEntered,
           parcelAccepted in *.
    state_simpl.
    rewrite (calculatePrice_frame s (setLoading false s)) by reflexivity.
    destruct s. state_simpl. repeat split; tauto.
Qed.

Lemma run_invariant (es : list Event) (s : State) :
  wizardInvariant s -> wizardInvariant (fst (run s es)).
Proof.
  revert s. induction es as [ | e es IH]; intros s Hinv; [exact Hinv | ].
  simpl.
  pose proof (dispatch_invariant s e Hinv) as H1.
  destruct (dispatch s e) as [s1 out1]. state_simpl.
  specialize (IH s1 H1).
  destruct (run s1 es) as [s2 out2]. exact IH.
Qed.

(** Whatever the user does, the wizard stays on one of its four steps and
    never holds more than three photos. *)
Theorem wizard_step_and_photos_bounded (es : list Event) :
  (1 <= step (fst (run initialState es)) <= 4)%nat /\
  (List.length (photos (fst (run initialState es))) <= 3)%nat.
Proof.
  destruct (run_invariant es initialState initialState_invariant)
    as (Hstep & Hph & _).
  split; assumption.
Qed.

(** No event changes the coordinates: whatever addresses are typed, the
    distance shown and priced is the one between the two default points,
    a little under 27.6 km. *)
Theorem distance_is_always_the_default (es : list Event) :
  calculateDistance (fst (run initialState es)) = calculateDistance initialState /\
  27.58 < calculateDistance (fst (run initialState es)) < 27.59.
Proof.
  destruct (run_invariant es initialState initialState_invariant)
    as (_ & _ & (H1 & H2 & H3 & H4) & _).
  assert (E : calculateDistance (fst (run initialState es))
              = calculateDistance initialState).
  { unfold calculateDistance. rewrite H1, H2, H3, H4. reflexivity. }
  split; [exact E | ].
  rewrite E.
  change (calculateDistance initialState)
    with (calculateDistance workedExample).
  exact workedExample_distance.
Qed.

(** The four prices of the default distance. *)
Lemma default_distance_prices (d : R) (w : string) (t : Timing) :
  27.58 < d < 27.59 ->
  priceFor d w t =
  if weightInBand (JS.or_default (JS.parseFloat w) (JS.Finite 0.5))
  then (if Timing_eqb t asap then 187%Z else 162%Z)
  else (if Timing_eqb t asap then 156%Z else 135%Z).
Proof.
  intros [Hlo Hhi]. unfold priceFor.
  assert (Ht : tierPrice d = 25 + 4 * d).
  { unfold tierPrice.
    repeat match goal with
           | |- context [Rlt_dec ?a ?b] => destruct (Rlt_dec a b)
           end; try (exfalso; lra).
    reflexivity. }
  rewrite Ht.
  destruct (weightInBand _); destruct (Timing_eqb t asap);
    apply Math_round_eq; split; lra.
Qed.



(** On the review step, the price shown is the price of the form as it is
    now: nothing that is priced can change without the price being computed
    again. *)
Theorem review_price_is_current (es : list Event) :
  step (fst (run initialState es)) = 4%nat ->
  calculatedPrice (fst (run initialState es))
  = calculatePrice (fst (run initialState es)).
Proof.
  destruct (run_invariant es initialState initialState_invariant)
    as (_ & _ & _ & _ & _ & Hprice).
  exact Hprice.
Qed.

Lemma review_price_is_current_witness :
  calculatedPrice (fst (run initialState
     [ChangePickupAddress "Panaji"; ChangeDropoffAddress "Margao"; PressNext;
      ChangeWeight "3"; ChangeDeclaredValue "500"; TapAddPhoto (Some "AAAA");
      PressNext; SelectTiming within_4h; PressNext]))
  = calculatePrice (fst (run initialState
     [ChangePickupAddress "Panaji"; ChangeDropoffAddress "Margao"; PressNext;
      ChangeWeight "3"; ChangeDeclaredValue "500"; TapAddPhoto (Some "AAAA");
      PressNext; SelectTiming within_4h; PressNext])).
Proof.
  apply (review_price_is_current
     [ChangePickupAddress "Panaji"; ChangeDropoffAddress "Margao"; PressNext;
      ChangeWeight "3"; ChangeDeclaredValue "500"; TapAddPhoto (Some "AAAA");
      PressNext; SelectTiming within_4h; PressNext]).
  lazy -[calculatePrice Q2R]. reflexivity.
Defined.

Lemma posted_app (out1 out2 : list Effect) :
  posted (List.app out1 out2) = List.app (posted out1) (posted out2).
Proof.
  induction out1 as [ | [title message | path body] out1 IH]; simpl;
    [reflexivity | exact IH | rewrite IH; reflexivity].
Qed.

Lemma handleNextStep_posts_nothing (s : State) :
  posted (snd (handleNextStep s)) = [].
Proof.
  unfold handleNextStep.
  repeat match goal with
         | |- context [if ?b then _ else _] => destruct b
         end; reflexivity.
Qed.

(** A number that is neither [<= 0] nor [> 5]. *)
Lemma accepted_weight (p : JS.Number) :
  JS.leb p (JS.Finite 0) = false -> JS.gtb p (JS.Finite 5) = false ->
  match p with
  | JS.NaN => True
  | JS.Infinity _ => False
  | JS.Finite q => (0 < q <= 5)%Q
  end.
Proof.
  destruct p as [ | n | q]; unfold JS.gtb; simpl; intros H1 H2.
  - exact I.
  - rewrite H1 in H2. discriminate H2.
  - apply negb_false_iff in H2. apply Qle_bool_iff in H2.
    split; [ | exact H2].
    apply Qnot_le_lt. intros Hle. apply Qle_bool_iff in Hle. congruence.
Qed.

(** A number that is not [<= 0]. *)
Lemma accepted_value (p : JS.Number) :
  JS.leb p (JS.Finite 0) = false ->
  match p with
  | JS.NaN => True
  | JS.Infinity negative => negative = false
  | JS.Finite q => (0 < q)%Q
  end.
Proof.
  destruct p as [ | n | q]; simpl; intros H1.
  - exact I.
  - exact H1.
  - apply Qnot_le_lt. intros Hle. apply Qle_bool_iff in Hle. congruence.
Qed.

Lemma deliveryData_validated (s : State) :
  wizardInvariant s -> step s = 4%nat -> validatedBody (deliveryData s).
Proof.
  intros (Hstep & Hph & (H1 & H2 & H3 & H4) & Haddr & Hparcel & _) E.
  destruct Haddr as [Ha Hb]; [lia | ].
  destruct Hparcel as (Hw & Hw0 & Hw5 & Hv & Hv0 & Hp); [lia | ].
  unfold validatedBody, deliveryData. simpl.
  split; [exact Ha | ]. split; [exact Hb | ].
  split; [apply accepted_weight; assumption | ].
  split; [apply accepted_value; assumption | ].
  split; [ | repeat split; assumption].
  split; [ | exact Hph].
  destruct (photos s); [contradiction | simpl; lia].
Qed.

Lemma dispatch_posts_validated (s : State) (e : Event) (body : DeliveryData) :
  wizardInvariant s ->
  In body (posted (snd (dispatch s e))) -> validatedBody body.
Proof.
  intros Hinv.
  assert (Hnone : forall s' : State,
             In body (posted (snd (s', @nil Effect))) -> validatedBody body).
  { intros s' []. }
  destruct e as [text | text | c | text | text | picked | index | t | | | response];
    unfold dispatch;
    try (match goal with
         | |- context [if ?b then _ else _] => destruct b
         end; apply Hnone).
  - (* next *)
    destruct (loading s); [apply Hnone | ].
    destruct (Nat.eqb (step s) 4) eqn:E.
    + apply Nat.eqb_eq in E. simpl. intros [<- | []].
      apply deliveryData_validated; assumption.
    + rewrite handleNextStep_posts_nothing. intros [].
  - (* the request has settled *)
    destruct (loading s); [ | apply Hnone].
    destruct response as [id | [detail | ]]; simpl; intros [].
Qed.

(** Every request the screen sends carries two addresses that are not
    blank, a weight that is a number only if it is in (0, 5], a declared
    value that is not zero or negative, between one and three photos, and
    the default coordinates. *)
Theorem every_posted_parcel_is_validated (es : list Event)
    (body : DeliveryData) :
  In body (posted (snd (run initialState es))) -> validatedBody body.
Proof.
  assert (G : forall (l : list Event) (s : State),
             wizardInvariant s ->
             In body (posted (snd (run s l))) -> validatedBody body).
  { induction l as [ | e l IH]; intros s Hinv; simpl; [contradiction | ].
    pose proof (dispatch_invariant s e Hinv) as H1.
    pose proof (dispatch_posts_validated s e body Hinv) as H2.
    destruct (dispatch s e) as [s1 out1]. state_simpl.
    specialize (IH s1 H1).
    destruct (run s1 l) as [s2 out2]. state_simpl.
    rewrite posted_app. intros Hin. apply in_app_or in Hin.
    destruct Hin as [Hin | Hin]; [apply H2 | apply IH]; exact Hin. }
  apply G. exact initialState_invariant.
Qed.

Lemma every_posted_parcel_is_validated_witness :
  validatedBody (deliveryData (fst (run initialState
    [ChangePickupAddress " Panaji "; ChangeDropoffAddress "Margao";
     PressNext; ChangeWeight "1.5"; ChangeDeclaredValue "500";
     TapAddPhoto (Some "AAAA"); PressNext; PressNext]))).
Proof.
  apply (every_posted_parcel_is_validated
    [ChangePickupAddress " Panaji "; ChangeDropoffAddress "Margao";
     PressNext; ChangeWeight "1.5"; ChangeDeclaredValue "500";
     TapAddPhoto (Some "AAAA"); PressNext; PressNext; PressNext]).
  lazy -[calculatePrice Q2R]. left. reflexivity.
Defined.

Lemma handleNextStep_loading (s : State) :
  loading (fst (handleNextStep s)) = loading s.
Proof.
  unfold handleNextStep.
  repeat match goal with
         | |- context [if ?b then _ else _] => destruct b
         end; destruct s; reflexivity.
Qed.

Lemma dispatch_in_flight (s : State) (e : Event) :
  (List.length (posted (snd (dispatch s e))) + (if loading s then 1 else 0)
   <= settled [e] + (if loading (fst (dispatch s e)) then 1 else 0))%nat.
Proof.
  assert (Hsame : forall (s' : State) (n : nat),
             loading s' = loading s ->
             (List.length (posted (snd (s', @nil Effect)))
              + (if loading s then 1 else 0)
              <= n + (if loading (fst (s', @nil Effect)) then 1 else 0))%nat).
  { intros s' n E. state_simpl. rewrite E. simpl. lia. }
  destruct e as [text | text | c | text | text | picked | index | t | | | response];
    unfold dispatch; cbn [settled].
  - destruct (Nat.eqb (step s) 1); apply Hsame; destruct s; reflexivity.
  - destruct (Nat.eqb (step s) 1); apply Hsame; destruct s; reflexivity.
  - destruct (Nat.eqb (step s) 2); apply Hsame; destruct s; reflexivity.
  - destruct (Nat.eqb (step s) 2); apply Hsame; destruct s; reflexivity.
  - destruct (Nat.eqb (step s) 2); apply Hsame; destruct s; reflexivity.
  - destruct (Nat.eqb (step s) 2 && Nat.ltb (List.length (photos s)) 3);
      apply Hsame; destruct picked; destruct s; reflexivity.
  - destruct (Nat.eqb (step s) 2); apply Hsame; destruct s; reflexivity.
  - destruct (Nat.eqb (step s) 3); apply Hsame; destruct s; reflexivity.
  - destruct (Nat.ltb 1 (step s)); apply Hsame; destruct s; reflexivity.
  - (* next *)
    destruct (loading s) eqn:L; [state_simpl; rewrite L; simpl; lia | ].
    destruct (Nat.eqb (step s) 4).
    + destruct s. state_simpl. simpl. lia.
    + rewrite handleNextStep_posts_nothing, handleNextStep_loading, L.
      simpl. lia.
  - (* the request has settled *)
    destruct (loading s) eqn:L.
    + destruct response as [id | [detail | ]]; destruct s; simpl; lia.
    + state_simpl. rewrite L. simpl. lia.
Qed.

Lemma run_in_flight (es : list Event) (s : State) :
  (List.length (posted (snd (run s es))) + (if loading s then 1 else 0)
   <= settled es + (if loading (fst (run s es)) then 1 else 0))%nat.
Proof.
  revert s. induction es as [ | e es IH]; intros s; [simpl; lia | ].
  pose proof (dispatch_in_flight s e) as H1.
  simpl run.
  destruct (dispatch s e) as [s1 out1]. state_simpl.
  specialize (IH s1).
  destruct (run s1 es) as [s2 out2]. state_simpl.
  rewrite posted_app, length_app.
  assert (E : settled (e :: es) = (settled [e] + settled es)%nat).
  { destruct e; reflexivity. }
  rewrite E. lia.
Qed.

(** The screen never has two requests in flight: among the first events up
    to any point, the requests sent are at most one more than the requests
    that have settled.  Pressing the button again while a request is
    pending sends nothing. *)
Theorem one_request_at_a_time (es : list Event) :
  (List.length (posted (snd (run initialState es))) <= S (settled es))%nat.
Proof.
  pose proof (run_in_flight es initialState) as H.
  change (loading initialState) with false in H.
  destruct (loading (fst (run initialState es))); lia.
Qed.

(** ** Blank addresses *)

Lemma skipWhiteSpace_head (s : string) :
  match JS.skipWhiteSpace s with
  | EmptyString => allWhiteSpace s = true
  | String c _ => JS.isWhiteSpace c = false /\ allWhiteSpace s = false
  end.
Proof.
  induction s as [ | c s IH]; simpl; [reflexivity | ].
  destruct (JS.isWhiteSpace c) eqn:W; simpl.
  - exact IH.
  - split; [exact W | reflexivity].
Qed.

Lemma trimEnd_empty (s : string) :
  JS.trimEnd s = "" <-> allWhiteSpace s = true.
Proof.
  induction s as [ | c s IH]; simpl; [tauto | ].
  destruct (JS.trimEnd s) as [ | a r].
  - destruct (JS.isWhiteSpace c); simpl.
    + tauto.
    + split; intros H; discriminate H.
  - split; [intros H; discriminate H | ].
    intros H. apply andb_true_iff in H. destruct H as [_ H].
    apply IH in H. discriminate H.
Qed.

Lemma trim_empty (s : string) : JS.trim s = "" <-> allWhiteSpace s = true.
Proof.
  unfold JS.trim. pose proof (skipWhiteSpace_head s) as H.
  destruct (JS.skipWhiteSpace s) as [ | c t] eqn:E.
  - simpl. tauto.
  - destruct H as [W F]. rewrite F. rewrite trimEnd_empty. simpl. rewrite W.
    simpl. tauto.
Qed.

Lemma str_not_trim (s : string) : JS.str_not (JS.trim s) = allWhiteSpace s.
Proof.
  destruct (allWhiteSpace s) eqn:W.
  - apply trim_empty in W. rewrite W. reflexivity.
  - apply str_not_false. intros E. apply trim_empty in E. congruence.
Qed.

(** Step 1 lets the user go on exactly when neither address is empty or
    made of white space only (TAB, LF, VT, FF, CR, SP and NBSP, among the
    code units below 256); otherwise it raises one alert and changes
    nothing. *)
Theorem blank_address_blocks_step_1 (s : State) :
  step s = 1%nat ->
  handleNextStep s =
  if allWhiteSpace (pickupAddress s) || allWhiteSpace (dropoffAddress s)
  then (s, [Alert "Error" "Please enter both pickup and dropoff addresses"])
  else (setStep 2 s, []).
Proof.
  intros E. unfold handleNextStep. rewrite E. simpl Nat.eqb. cbv iota.
  rewrite !str_not_trim. reflexivity.
Qed.

Lemma blank_address_blocks_step_1_witness :
  handleNextStep
    (setPickupAddress (String "160"%char (String " "%char EmptyString))
       initialState) =
  (setPickupAddress (String "160"%char (String " "%char EmptyString))
     initialState,
   [Alert "Error" "Please enter both pickup and dropoff addresses"]).
Proof.
  apply (blank_address_blocks_step_1
           (setPickupAddress (String "160"%char (String " "%char EmptyString))
              initialState)).
  reflexivity.
Defined.

Lemma trimEnd_idempotent (s : string) :
  JS.trimEnd (JS.trimEnd s) = JS.trimEnd s.
Proof.
  induction s as [ | c s IH]; simpl; [reflexivity | ].
  destruct (JS.trimEnd s) as [ | a r] eqn:E.
  - destruct (JS.isWhiteSpace c) eqn:W; simpl; [reflexivity | ].
    rewrite W. reflexivity.
  - simpl in IH. simpl. rewrite IH. reflexivity.
Qed.

Lemma trimEnd_head (c : ascii) (s : string) :
  JS.isWhiteSpace c = false ->
  exists r : string, JS.trimEnd (String c s) = String c r.
Proof.
  intros W. simpl. destruct (JS.trimEnd s) as [ | a r].
  - rewrite W. exists EmptyString. reflexivity.
  - exists (String a r). reflexivity.
Qed.

Lemma trim_idempotent (s : string) : JS.trim (JS.trim s) = JS.trim s.
Proof.
  unfold JS.trim. pose proof (skipWhiteSpace_head s) as H.
  destruct (JS.skipWhiteSpace s) as [ | c t] eqn:E; [reflexivity | ].
  destruct H as [W _].
  destruct (trimEnd_head c t W) as [r Hr].
  rewrite Hr.
  replace (JS.skipWhiteSpace (String c r)) with (String c r)
    by (simpl; rewrite W; reflexivity).
  rewrite <- Hr. apply trimEnd_idempotent.
Qed.

(** The addresses are sent trimmed: trimming what is sent changes nothing,
    whatever white space the user typed around them. *)
Theorem posted_addresses_are_trimmed (s : State) :
  JS.trim (pickup_address (deliveryData s)) = pickup_address (deliveryData s) /\
  JS.trim (dropoff_address (deliveryData s)) = dropoff_address (deliveryData s) /\
  JS.skipWhiteSpace (pickup_address (deliveryData s))
    = pickup_address (deliveryData s) /\
  JS.skipWhiteSpace (dropoff_address (deliveryData s))
    = dropoff_address (deliveryData s).
Proof.
  unfold deliveryData. simpl.
  assert (G : forall a : string,
             JS.skipWhiteSpace (JS.trim a) = JS.trim a).
  { intros a. unfold JS.trim. pose proof (skipWhiteSpace_head a) as H.
    destruct (JS.skipWhiteSpace a) as [ | c t]; [reflexivity | ].
    destruct H as [W _]. destruct (trimEnd_head c t W) as [r Hr].
    rewrite Hr. simpl. rewrite W. reflexivity. }
  repeat split; try apply trim_idempotent; apply G.
Qed.

(** ** Photos *)

Lemma removeAt_app_last {A : Type} (l : list A) (x : A) :
  removeAt (List.length l) (List.app l [x]) = l.
Proof.
  induction l as [ | h t IH]; simpl; [reflexivity | rewrite IH; reflexivity].
Qed.

Lemma removeAt_out_of_range {A : Type} (index : nat) (l : list A) :
  (List.length l <= index)%nat -> removeAt index l = l.
Proof.
  revert index. induction l as [ | h t IH]; intros index H;
    [destruct index; reflexivity | ].
  destruct index as [ | i]; simpl in *; [lia | ].
  rewrite IH by lia. reflexivity.
Qed.

Lemma removeAt_nth_error {A : Type} (index : nat) (l : list A) :
  (index < List.length l)%nat ->
  S (List.length (removeAt index l)) = List.length l /\
  (forall j : nat, (j < index)%nat ->
     nth_error (removeAt index l) j = nth_error l j) /\
  (forall j : nat, (index <= j)%nat ->
     nth_error (removeAt index l) j = nth_error l (S j)).
Proof.
  revert index. induction l as [ | h t IH]; intros index H; simpl in H; [lia | ].
  destruct index as [ | i]; simpl.
  - split; [reflexivity | ]. split; [intros j Hj; lia | ].
    intros j _. reflexivity.
  - destruct (IH i) as (Hlen & Hlow & Hhigh); [lia | ].
    split; [lia | ]. split.
    + intros [ | j] Hj; simpl; [reflexivity | apply Hlow; lia].
    + intros [ | j] Hj; simpl; [lia | apply Hhigh; lia].
Qed.

Lemma setPhotos_same (s : State) : setPhotos (photos s) s = s.
Proof. destruct s. reflexivity. Qed.

(** Removing photo [index] on step 2 takes exactly that photo out: the
    photos before it stay where they are and the later ones move down by
    one.  An index past the end removes nothing. *)
Theorem remove_photo_takes_one_out (s : State) (index : nat) :
  step s = 2%nat ->
  let s' := fst (dispatch s (TapRemovePhoto index)) in
  ((index < List.length (photos s))%nat ->
   S (List.length (photos s')) = List.length (photos s) /\
   (forall j : nat, (j < index)%nat ->
      nth_error (photos s') j = nth_error (photos s) j) /\
   (forall j : nat, (index <= j)%nat ->
      nth_error (photos s') j = nth_error (photos s) (S j))) /\
  ((List.length (photos s) <= index)%nat -> s' = s).
Proof.
  intros E s'. subst s'. unfold dispatch. rewrite E. simpl Nat.eqb. cbv iota.
  cbn [fst]. split.
  - intros H. destruct s. state_simpl. apply removeAt_nth_error. exact H.
  - intros H. rewrite removeAt_out_of_range by exact H. apply setPhotos_same.
Qed.

Lemma remove_photo_takes_one_out_witness :
  fst (dispatch (parcelForm "1" "100" ["a"; "b"]) (TapRemovePhoto 5))
  = parcelForm "1" "100" ["a"; "b"].
Proof.
  apply (remove_photo_takes_one_out (parcelForm "1" "100" ["a"; "b"]) 5
           eq_refl).
  simpl. lia.
Defined.

(** Adding a photo and then removing the last one gives back the state
    there was before, with no alert. *)
Theorem add_then_remove_photo (s : State) (base64 : string) :
  step s = 2%nat -> (List.length (photos s) < 3)%nat ->
  run s [TapAddPhoto (Some base64); TapRemovePhoto (List.length (photos s))]
  = (s, []).
Proof.
  intros E L. apply Nat.ltb_lt in L.
  destruct s as [ld st pa plat plng da dlat dlng cat w v ph tm cp].
  state_simpl. subst st.
  cbn [run dispatch]. state_simpl. rewrite L.
  cbn [Nat.eqb andb]. state_simpl. cbn [Nat.eqb]. state_simpl.
  rewrite removeAt_app_last. reflexivity.
Qed.

Lemma add_then_remove_photo_witness :
  run (parcelForm "1" "100" ["a"; "b"])
    [TapAddPhoto (Some "AAAA"); TapRemovePhoto 2]
  = (parcelForm "1" "100" ["a"; "b"], []).
Proof.
  apply (add_then_remove_photo (parcelForm "1" "100" ["a"; "b"]) "AAAA").
  - reflexivity.
  - simpl. lia.
Defined.

(** ** Going back, and sending again *)

(** [handleNextStep] touches nothing but the step and the price: the form
    is left as the user filled it in.  It sends no request, and when it
    raises an alert it leaves the whole state as it was. *)
Theorem handleNextStep_keeps_the_form (s : State) :
  let s' := fst (handleNextStep s) in
  let out := snd (handleNextStep s) in
  loading s' = loading s /\
  pickupAddress s' = pickupAddress s /\
  dropoffAddress s' = dropoffAddress s /\
  category s' = category s /\
  weight s' = weight s /\
  declaredValue s' = declaredValue s /\
  photos s' = photos s /\
  timing s' = timing s /\
  posted out = [] /\
  (out <> [] -> s' = s) /\
  (step s' = step s \/ step s' = S (step s)).
Proof.
  cbv zeta.
  split; [apply handleNextStep_loading | ].
  rewrite handleNextStep_posts_nothing.
  unfold handleNextStep.
  destruct (Nat.eqb (step s) 1) eqn:E1;
    [apply Nat.eqb_eq in E1 | ];
    [ | destruct (Nat.eqb (step s) 2) eqn:E2;
        [apply Nat.eqb_eq in E2 | ];
        [ | destruct (Nat.eqb (step s) 3) eqn:E3;
            [apply Nat.eqb_eq in E3 | ]]];
    repeat match goal with
           | |- context [if ?b then _ else _] => destruct b
           end;
    destruct s; state_simpl;
    repeat split; try reflexivity; try tauto;
    try (intros H; exfalso; apply H; reflexivity);
    try (right; subst; reflexivity); try (left; reflexivity).
Qed.

Lemma setLoading_false_true (s : State) :
  loading s = false -> setLoading false (setLoading true s) = s.
Proof. intros H. destruct s. simpl in H. subst. reflexivity. Qed.

(** When the request fails, the form is as it was before it was sent, the
    alert shows the detail of the error (the fixed text when the detail is
    missing or empty), and pressing the button again sends the same request
    again. *)
Theorem failed_submit_can_be_retried (s : State) (detail : option string) :
  step s = 4%nat -> loading s = false ->
  run s [PressNext; SubmitSettled (inr detail)]
  = (s, [ApiPost "/deliveries" (deliveryData s);
         Alert "Error" (errorMessage detail)]) /\
  snd (run s [PressNext; SubmitSettled (inr detail); PressNext])
  = [ApiPost "/deliveries" (deliveryData s);
     Alert "Error" (errorMessage detail);
     ApiPost "/deliveries" (deliveryData s)] /\
  errorMessage None = "Failed to create delivery" /\
  errorMessage (Some "") = "Failed to create delivery" /\
  (forall message : string,
     message <> "" -> errorMessage (Some message) = message).
Proof.
  intros E L.
  destruct s as [ld st pa plat plng da dlat dlng cat w v ph tm cp].
  state_simpl. subst st ld.
  split; [ | split; [ | split; [ | split]]]; try reflexivity.
  intros message H. unfold errorMessage.
  apply str_not_false in H. rewrite H. reflexivity.
Qed.

Lemma failed_submit_can_be_retried_witness :
  run (setStep 4 (parcelForm "1" "100" ["a"]))
    [PressNext; SubmitSettled (inr (Some ""))]
  = (setStep 4 (parcelForm "1" "100" ["a"]),
     [ApiPost "/deliveries"
        (deliveryData (setStep 4 (parcelForm "1" "100" ["a"])));
      Alert "Error" (errorMessage (Some ""))]).
Proof.
  apply (failed_submit_can_be_retried
           (setStep 4 (parcelForm "1" "100" ["a"])) (Some ""));
    reflexivity.
Defined.

Lemma setStep_same (s : State) : setStep (step s) s = s.
Proof. destruct s. reflexivity. Qed.

Lemma back_then_next (s : State) :
  wizardInvariant s -> loading s = false -> (2 <= step s)%nat ->
  run s [PressBack; PressNext] = (s, []).
Proof.
  intros (Hstep & Hph & Hco & Haddr & Hparcel & Hprice) L H2.
  specialize (Haddr H2). destruct Haddr as [Ha Hb].
  apply str_not_false in Ha. apply str_not_false in Hb.
  destruct s as [ld st pa plat plng da dlat dlng cat w v ph tm cp].
  unfold parcelAccepted in *. state_simpl. subst ld.
  destruct st as [ | [ | [ | [ | [ | n]]]]]; try lia.
  - (* from step 2 *)
    cbn [run dispatch]. state_simpl. cbn [Nat.ltb Nat.leb Nat.sub Nat.eqb].
    state_simpl. unfold handleNextStep. state_simpl. cbn [Nat.eqb].
    rewrite Ha, Hb. reflexivity.
  - (* from step 3 *)
    destruct Hparcel as (Hw & Hw0 & Hw5 & Hv & Hv0 & Hp); [lia | ].
    apply str_not_false in Hw. apply str_not_false in Hv.
    cbn [run dispatch]. state_simpl. cbn [Nat.ltb Nat.leb Nat.sub Nat.eqb].
    state_simpl. unfold handleNextStep. state_simpl. cbn [Nat.eqb].
    rewrite Hw, Hw0, Hw5, Hv, Hv0.
    destruct ph as [ | p ph]; [contradiction | reflexivity].
  - (* from step 4 *)
    specialize (Hprice eq_refl).
    cbn [run dispatch]. state_simpl. cbn [Nat.ltb Nat.leb Nat.sub Nat.eqb].
    state_simpl. unfold handleNextStep. state_simpl. cbn [Nat.eqb].
    cbv zeta. state_simpl. cbn [List.app].
    match goal with
    | |- context [calculatePrice ?st] =>
        replace (calculatePrice st) with cp by exact Hprice
    end.
    reflexivity.
Qed.

(** From any step the wizard can reach, going back one step and pressing
    Next returns to the very same state, with no alert: the form kept what
    was entered, it passes the validation again, and the price computed
    again is the same. *)
Theorem back_then_next_returns (es : list Event) :
  let s := fst (run initialState es) in
  loading s = false -> (2 <= step s)%nat ->
  run s [PressBack; PressNext] = (s, []).
Proof.
  intros s L H2. apply back_then_next; try assumption.
  apply run_invariant. exact initialState_invariant.
Qed.

Lemma back_then_next_returns_witness :
  run (fst (run initialState
         [ChangePickupAddress "Panaji"; ChangeDropoffAddress "Margao";
          PressNext]))
    [PressBack; PressNext]
  = (fst (run initialState
         [ChangePickupAddress "Panaji"; ChangeDropoffAddress "Margao";
          PressNext]), []).
Proof.
  apply (back_then_next_returns
         [ChangePickupAddress "Panaji"; ChangeDropoffAddress "Margao";
          PressNext]).
  - reflexivity.
  - lazy -[calculatePrice Q2R]. lia.
Defined.

(** ** The session *)

Lemma getItem_setItem_same (key value : string) (st : AsyncStorage.Storage) :
  AsyncStorage.getItem key (AsyncStorage.setItem key value st) = Some value.
Proof.
  unfold AsyncStorage.getItem, AsyncStorage.setItem.
  rewrite String.eqb_refl. reflexivity.
Qed.

Lemma getItem_removeItem_same (key : string) (st : AsyncStorage.Storage) :
  AsyncStorage.getItem key (AsyncStorage.removeItem key st) = None.
Proof.
  unfold AsyncStorage.getItem, AsyncStorage.removeItem.
  rewrite String.eqb_refl. reflexivity.
Qed.

(** After [login] with a token that is not empty, every request carries
    that token as its bearer, with its url and its other headers as they
    were. *)
Theorem login_authorizes_requests (JSON_stringify : AuthStore.User -> string)
    (u : AuthStore.User) (token : string)
    (st : AsyncStorage.Storage) (a : AuthStore.AuthState)
    (config : Api.RequestConfig) :
  token <> "" ->
  let st' := fst (AuthStore.login JSON_stringify u token st a) in
  let config' := Api.requestInterceptor st' config in
  Api.headers config' "Authorization" = Some ("Bearer " ++ token) /\
  Api.url config' = Api.url config /\
  (forall h : string, h <> "Authorization" ->
     Api.headers config' h = Api.headers config h).
Proof.
  intros Htoken st' config'. subst st' config'.
  unfold AuthStore.login, Api.requestInterceptor. cbn [fst].
  assert (E : AsyncStorage.getItem "session_token"
                (AsyncStorage.setItem "user" (JSON_stringify u)
                   (AsyncStorage.setItem "session_token" token st))
              = Some token) by reflexivity.
  rewrite E.
  apply str_not_false in Htoken. rewrite Htoken.
  unfold Api.setAuthorization. cbn [Api.headers Api.url].
  split; [reflexivity | ]. split; [reflexivity | ].
  intros h Hh. apply String.eqb_neq in Hh. rewrite Hh. reflexivity.
Qed.

Lemma login_authorizes_requests_witness :
  Api.headers
    (Api.requestInterceptor
       (fst (AuthStore.login (fun u => AuthStore.user_id u)
               (AuthStore.mkUser "u1" "a@b.c" "Asha" None AuthStore.sender
                  None true)
               "tok" AsyncStorage.empty AuthStore.initialAuth))
       (Api.mkConfig "/deliveries" (fun _ => None)))
    "Authorization"
  = Some "Bearer tok".
Proof.
  apply (login_authorizes_requests (fun u => AuthStore.user_id u)
           (AuthStore.mkUser "u1" "a@b.c" "Asha" None AuthStore.sender
              None true)
           "tok" AsyncStorage.empty AuthStore.initialAuth
           (Api.mkConfig "/deliveries" (fun _ => None))).
  discriminate.
Defined.

(** A 401 response removes the session from the storage, so that the next
    request goes out as it is, with no token added; every other key of the
    storage is kept, and the error is passed on unchanged. *)
Theorem unauthorized_response_drops_the_token
    (st : AsyncStorage.Storage) (error : Api.ResponseError)
    (config : Api.RequestConfig) :
  Api.status error = Some 401%nat ->
  let st' := fst (Api.responseErrorInterceptor st error) in
  AsyncStorage.getItem "session_token" st' = None /\
  AsyncStorage.getItem "user" st' = None /\
  (forall key : string, key <> "session_token" -> key <> "user" ->
     AsyncStorage.getItem key st' = AsyncStorage.getItem key st) /\
  Api.requestInterceptor st' config = config /\
  snd (Api.responseErrorInterceptor st error) = error.
Proof.
  intros H st'. subst st'. unfold Api.responseErrorInterceptor. rewrite H.
  cbn [Nat.eqb fst snd].
  split; [reflexivity | ]. split; [reflexivity | ].
  split.
  - intros key H1 H2. apply String.eqb_neq in H1. apply String.eqb_neq in H2.
    unfold AsyncStorage.getItem, AsyncStorage.removeItem.
    rewrite H1, H2. reflexivity.
  - split; reflexivity.
Qed.

Lemma unauthorized_response_drops_the_token_witness :
  Api.requestInterceptor
    (fst (Api.responseErrorInterceptor
            (AsyncStorage.setItem "session_token" "tok" AsyncStorage.empty)
            (Api.mkError (Some 401%nat) None)))
    (Api.mkConfig "/deliveries" (fun _ => None))
  = Api.mkConfig "/deliveries" (fun _ => None).
Proof.
  apply (unauthorized_response_drops_the_token
           (AsyncStorage.setItem "session_token" "tok" AsyncStorage.empty)
           (Api.mkError (Some 401%nat) None)
           (Api.mkConfig "/deliveries" (fun _ => None))).
  reflexivity.
Defined.

(** Any other error leaves the storage alone. *)
Theorem other_errors_keep_the_session
    (st : AsyncStorage.Storage) (error : Api.ResponseError) :
  Api.status error <> Some 401%nat ->
  Api.responseErrorInterceptor st error = (st, error).
Proof.
  intros H. unfold Api.responseErrorInterceptor.
  destruct (Api.status error) as [code | ]; [ | reflexivity].
  destruct (Nat.eqb code 401) eqn:E; [ | reflexivity].
  apply Nat.eqb_eq in E. subst code. contradiction.
Qed.

Lemma other_errors_keep_the_session_witness :
  Api.responseErrorInterceptor
    (AsyncStorage.setItem "session_token" "tok" AsyncStorage.empty)
    (Api.mkError (Some 500%nat) None)
  = (AsyncStorage.setItem "session_token" "tok" AsyncStorage.empty,
     Api.mkError (Some 500%nat) None).
Proof.
  apply (other_errors_keep_the_session
           (AsyncStorage.setItem "session_token" "tok" AsyncStorage.empty)
           (Api.mkError (Some 500%nat) None)).
  discriminate.
Defined.

(** What [login] stored is what [initialize] finds at the next start of
    the application, provided the token is not empty and the user survives
    the round trip through JSON: the store holds the same user and token
    again, and the index screen goes to the home screen. *)
Theorem login_then_initialize_restores
    (JSON_stringify : AuthStore.User -> string)
    (JSON_parse : string -> option (option AuthStore.User))
    (u : AuthStore.User) (token : string)
    (st : AsyncStorage.Storage) (a : AuthStore.AuthState) :
  token <> "" -> JSON_stringify u <> "" ->
  JSON_parse (JSON_stringify u) = Some (Some u) ->
  let st' := fst (AuthStore.login JSON_stringify u token st a) in
  AuthStore.initialize JSON_parse st' AuthStore.initialAuth
  = AuthStore.mkAuth (Some u) (Some token) false /\
  AuthStore.Index (AuthStore.initialize JSON_parse st' AuthStore.initialAuth)
  = AuthStore.Home.
Proof.
  intros Htoken Hstr Hparse st'. subst st'.
  assert (E : AuthStore.initialize JSON_parse
                (fst (AuthStore.login JSON_stringify u token st a))
                AuthStore.initialAuth
              = AuthStore.mkAuth (Some u) (Some token) false).
  { unfold AuthStore.initialize, AuthStore.login. cbn [fst].
    rewrite getItem_setItem_same.
    assert (E : AsyncStorage.getItem "session_token"
                  (AsyncStorage.setItem "user" (JSON_stringify u)
                     (AsyncStorage.setItem "session_token" token st))
                = Some token) by reflexivity.
    rewrite E.
    apply str_not_false in Htoken. apply str_not_false in Hstr.
    rewrite Htoken, Hstr, Hparse. reflexivity. }
  rewrite E. split; reflexivity.
Qed.

Lemma login_then_initialize_restores_witness :
  AuthStore.Index
    (AuthStore.initialize
       (fun _ => Some (Some (AuthStore.mkUser "u1" "a@b.c" "Asha" None
                               AuthStore.sender None true)))
       (fst (AuthStore.login (fun u => AuthStore.user_id u)
               (AuthStore.mkUser "u1" "a@b.c" "Asha" None AuthStore.sender
                  None true)
               "tok" AsyncStorage.empty AuthStore.initialAuth))
       AuthStore.initialAuth)
  = AuthStore.Home.
Proof.
  apply (login_then_initialize_restores (fun u => AuthStore.user_id u)
           (fun _ => Some (Some (AuthStore.mkUser "u1" "a@b.c" "Asha" None
                                   AuthStore.sender None true)))
           (AuthStore.mkUser "u1" "a@b.c" "Asha" None AuthStore.sender
              None true)
           "tok" AsyncStorage.empty AuthStore.initialAuth);
    [discriminate | discriminate | reflexivity].
Defined.

(** After [logout] nothing of the session is left: the store holds no user
    and no token, requests go out without a token, and at the next start
    [initialize] finds nobody, so that the index screen goes to the login
    screen. *)
Theorem logout_ends_the_session
    (JSON_parse : string -> option (option AuthStore.User))
    (st : AsyncStorage.Storage) (a : AuthStore.AuthState)
    (config : Api.RequestConfig) :
  let st' := fst (AuthStore.logout st a) in
  let a' := snd (AuthStore.logout st a) in
  AuthStore.user a' = None /\
  AuthStore.sessionToken a' = None /\
  Api.requestInterceptor st' config = config /\
  AuthStore.initialize JSON_parse st' AuthStore.initialAuth
  = AuthStore.mkAuth None None false /\
  AuthStore.Index (AuthStore.initialize JSON_parse st' AuthStore.initialAuth)
  = AuthStore.Login.
Proof.
  cbv zeta. unfold AuthStore.logout. cbn [fst snd].
  split; [reflexivity | ]. split; [reflexivity | ].
  split; [reflexivity | ].
  split; reflexivity.
Qed.

(** A successful role switch turns a sender into a carrier and anyone else
    into a sender, and changes nothing else of the user; a failed one
    changes nothing.  The role asked for is never [admin]. *)
Theorem role_switch_toggles (succeeds : bool) (a : AuthStore.AuthState)
    (u : AuthStore.User) :
  AuthStore.user a = Some u ->
  let a' := fst (AuthStore.handleRoleSwitch succeeds a) in
  let newRole :=
    match AuthStore.role u with
    | AuthStore.sender => AuthStore.carrier
    | _ => AuthStore.sender
    end in
  snd (AuthStore.handleRoleSwitch succeeds a) = Some newRole /\
  AuthStore.user a'
  = Some (if succeeds then AuthStore.withRole newRole u else u) /\
  AuthStore.sessionToken a' = AuthStore.sessionToken a /\
  AuthStore.isLoading a' = AuthStore.isLoading a.
Proof.
  intros Hu. cbv zeta.
  unfold AuthStore.handleRoleSwitch, AuthStore.isSender. rewrite Hu.
  cbn [fst snd].
  destruct (AuthStore.role u); destruct succeeds; cbn;
    repeat split; try reflexivity; exact Hu.
Qed.

Lemma role_switch_toggles_witness :
  snd (AuthStore.handleRoleSwitch true
         (AuthStore.mkAuth
            (Some (AuthStore.mkUser "u1" "a@b.c" "Asha" None AuthStore.admin
                     None true))
            (Some "tok") false))
  = Some AuthStore.sender.
Proof.
  apply (role_switch_toggles true
           (AuthStore.mkAuth
              (Some (AuthStore.mkUser "u1" "a@b.c" "Asha" None AuthStore.admin
                       None true))
              (Some "tok") false)
           (AuthStore.mkUser "u1" "a@b.c" "Asha" None AuthStore.admin
              None true)).
  reflexivity.
Defined.

(** Two successful role switches in a row give back the user there was,
    for a sender and for a carrier. *)
Theorem two_role_switches_restore (a : AuthStore.AuthState)
    (u : AuthStore.User) :
  AuthStore.user a = Some u -> AuthStore.role u <> AuthStore.admin ->
  fst (AuthStore.handleRoleSwitch true
         (fst (AuthStore.handleRoleSwitch true a))) = a.
Proof.
  intros Hu Hrole.
  destruct a as [ua tok ld]. cbn in Hu. subst ua.
  destruct u as [uid em nm pic r ph act]. cbn in Hrole.
  destruct r; [reflexivity | reflexivity | contradiction].
Qed.

Lemma two_role_switches_restore_witness :
  fst (AuthStore.handleRoleSwitch true
         (fst (AuthStore.handleRoleSwitch true
                 (AuthStore.mkAuth
                    (Some (AuthStore.mkUser "u1" "a@b.c" "Asha" None
                             AuthStore.carrier None true))
                    (Some "tok") false))))
  = AuthStore.mkAuth
      (Some (AuthStore.mkUser "u1" "a@b.c" "Asha" None AuthStore.carrier
               None true))
      (Some "tok") false.
Proof.
  apply (two_role_switches_restore
           (AuthStore.mkAuth
              (Some (AuthStore.mkUser "u1" "a@b.c" "Asha" None
                       AuthStore.carrier None true))
              (Some "tok") false)
           (AuthStore.mkUser "u1" "a@b.c" "Asha" None AuthStore.carrier
              None true));
    [reflexivity | discriminate].
Defined.

